(** * AccountList: the account list / create / edit / delete component

    A shallow embedding of [force-app/main/default/lwc/accountList/accountList.js].

    The component is a JavaScript class whose handlers read and assign the
    fields of [this], dispatch toast events and call four remote operations
    that return promises.  The embedding keeps that shape:

    - JavaScript values are a small dynamic type ([JS.value]) with the
      language's truthiness, property access (which throws on [undefined] and
      [null]), optional chaining, [||] and [===];
    - the fields of [this] are a record ([component]);
    - a handler is a computation in a monad ([M]) that threads the component,
      may throw, and collects in order everything the component sends out
      (toasts, remote calls, refresh requests, the confirmation prompt);
    - a promise chain [p.then(f).catch(g).finally(h)] is run on the settlement
      of [p], which the environment supplies. *)

From Stdlib Require Import String List ZArith Bool Lia.
Import ListNotations.
Local Open Scope string_scope.
Local Open Scope list_scope.

(** ** JavaScript values *)

Module JS.

(** The values the component handles.  Numbers are the integer-valued ones
    (the component never computes with numbers; they only matter for
    truthiness).  Objects are property lists in insertion order. *)
#[warnings="-register-all"]
Inductive value : Type :=
| VUndefined
| VNull
| VBool (b : bool)
| VNum (z : Z)
| VStr (s : string)
| VObj (props : list (string * value))
| VArr (elems : list value).

(** What evaluating an expression gives: a value, or a thrown exception. *)
Inductive outcome (A : Type) : Type :=
| Normal (a : A)
| Throws (exn : value).
Arguments Normal {A} a.
Arguments Throws {A} exn.

(** How a promise settles. *)
Inductive settled : Type :=
| Fulfilled (v : value)
| Rejected (reason : value).

(** The exception of a property read on [undefined] or [null], and of a call
    of something that is not a function. *)
Definition TypeError : value := VObj [("name", VStr "TypeError")].

(** ToBoolean. *)
Definition truthy (v : value) : bool :=
  match v with
  | VUndefined | VNull => false
  | VBool b => b
  | VNum z => negb (z =? 0)%Z
  | VStr s => negb (s =? "")
  | VObj _ | VArr _ => true
  end.

Definition nullish (v : value) : bool :=
  match v with
  | VUndefined | VNull => true
  | _ => false
  end.

Fixpoint lookup (props : list (string * value)) (key : string) : option value :=
  match props with
  | [] => None
  | (k, v) :: rest => if k =? key then Some v else lookup rest key
  end.

(** The property [key] of a value that is not [undefined] or [null]: an
    object's own property, [undefined] when it has none.  Primitives and
    arrays have none of the properties the component reads. *)
Definition prop (v : value) (key : string) : value :=
  match v with
  | VObj props =>
      match lookup props key with
      | Some x => x
      | None => VUndefined
      end
  | _ => VUndefined
  end.

(** [v.key] *)
Definition get (v : value) (key : string) : outcome value :=
  if nullish v then Throws TypeError else Normal (prop v key).

(** [v?.key] *)
Definition get_opt (v : value) (key : string) : value :=
  if nullish v then VUndefined else prop v key.

(** [a || b] *)
Definition or_else (a b : value) : value :=
  if truthy a then a else b.

(** [a === b].  Objects and arrays compare by identity, which the value type
    does not carry; every [===] of the component has a DOM attribute (a
    string or [undefined]) on one side, so a comparison against an object
    or an array is [false]. *)
Definition strict_eq (a b : value) : bool :=
  match a, b with
  | VUndefined, VUndefined => true
  | VNull, VNull => true
  | VBool x, VBool y => Bool.eqb x y
  | VNum x, VNum y => (x =? y)%Z
  | VStr x, VStr y => (x =? y)
  | _, _ => false
  end.

(** [elems.find(a => a.Id === accountId)] on the elements of an array: the
    first element whose [Id] is [accountId], [undefined] when there is none;
    the callback throws on an element that is [undefined] or [null]. *)
Fixpoint find_by_Id (elems : list value) (accountId : value) : outcome value :=
  match elems with
  | [] => Normal VUndefined
  | a :: rest =>
      match get a "Id" with
      | Throws e => Throws e
      | Normal id =>
          if strict_eq id accountId then Normal a
          else find_by_Id rest accountId
      end
  end.

(** [coll.find(a => a.Id === accountId)]: reading [find] off [undefined] or
    [null] throws, and so does calling it on a value that has no such
    method. *)
Definition find (coll : value) (accountId : value) : outcome value :=
  match coll with
  | VArr elems => find_by_Id elems accountId
  | _ => Throws TypeError
  end.

Definition is_object (v : value) : bool :=
  match v with
  | VObj _ => true
  | _ => false
  end.

End JS.
Import JS.

(** ** Component state *)

(** The fields of the component instance, with the names of the class.
    [wiredAccountsResult] is not declared by the class: it is [undefined]
    until the wire handler assigns it. *)
Record component : Type := {
  accounts : value;
  error : value;
  isLoading : bool;
  accountName : value;
  accountIndustry : value;
  accountPhone : value;
  accountDescription : value;
  accountSite : value;
  editRecordId : value;
  editName : value;
  editIndustry : value;
  editPhone : value;
  editDescription : value;
  editSite : value;
  wiredAccountsResult : value;
  isEditingThisRow : bool
}.

(** The field initialisers of the class. *)
Definition initial : component := {|
  accounts := VUndefined;
  error := VUndefined;
  isLoading := false;
  accountName := VStr "";
  accountIndustry := VStr "";
  accountPhone := VStr "";
  accountDescription := VStr "";
  accountSite := VStr "";
  editRecordId := VNull;
  editName := VStr "";
  editIndustry := VStr "";
  editPhone := VStr "";
  editDescription := VStr "";
  editSite := VStr "";
  wiredAccountsResult := VUndefined;
  isEditingThisRow := false
|}.

(** Assignments [this.f = x]. *)
Definition set_accounts (x : value) (c : component) : component :=
  {| accounts := x; error := error c; isLoading := isLoading c;
     accountName := accountName c; accountIndustry := accountIndustry c;
     accountPhone := accountPhone c; accountDescription := accountDescription c;
     accountSite := accountSite c; editRecordId := editRecordId c;
     editName := editName c; editIndustry := editIndustry c;
     editPhone := editPhone c; editDescription := editDescription c;
     editSite := editSite c; wiredAccountsResult := wiredAccountsResult c;
     isEditingThisRow := isEditingThisRow c |}.

Definition set_error (x : value) (c : component) : component :=
  {| accounts := accounts c; error := x; isLoading := isLoading c;
     accountName := accountName c; accountIndustry := accountIndustry c;
     accountPhone := accountPhone c; accountDescription := accountDescription c;
     accountSite := accountSite c; editRecordId := editRecordId c;
     editName := editName c; editIndustry := editIndustry c;
     editPhone := editPhone c; editDescription := editDescription c;
     editSite := editSite c; wiredAccountsResult := wiredAccountsResult c;
     isEditingThisRow := isEditingThisRow c |}.

Definition set_isLoading (x : bool) (c : component) : component :=
  {| accounts := accounts c; error := error c; isLoading := x;
     accountName := accountName c; accountIndustry := accountIndustry c;
     accountPhone := accountPhone c; accountDescription := accountDescription c;
     accountSite := accountSite c; editRecordId := editRecordId c;
     editName := editName c; editIndustry := editIndustry c;
     editPhone := editPhone c; editDescription := editDescription c;
     editSite := editSite c; wiredAccountsResult := wiredAccountsResult c;
     isEditingThisRow := isEditingThisRow c |}.

Definition set_accountName (x : value) (c : component) : component :=
  {| accounts := accounts c; error := error c; isLoading := isLoading c;
     accountName := x; accountIndustry := accountIndustry c;
     accountPhone := accountPhone c; accountDescription := accountDescription c;
     accountSite := accountSite c; editRecordId := editRecordId c;
     editName := editName c; editIndustry := editIndustry c;
     editPhone := editPhone c; editDescription := editDescription c;
     editSite := editSite c; wiredAccountsResult := wiredAccountsResult c;
     isEditingThisRow := isEditingThisRow c |}.

Definition set_accountIndustry (x : value) (c : component) : component :=
  {| accounts := accounts c; error := error c; isLoading := isLoading c;
     accountName := accountName c; accountIndustry := x;
     accountPhone := accountPhone c; accountDescription := accountDescription c;
     accountSite := accountSite c; editRecordId := editRecordId c;
     editName := editName c; editIndustry := editIndustry c;
     editPhone := editPhone c; editDescription := editDescription c;
     editSite := editSite c; wiredAccountsResult := wiredAccountsResult c;
     isEditingThisRow := isEditingThisRow c |}.

Definition set_accountPhone (x : value) (c : component) : component :=
  {| accounts := accounts c; error := error c; isLoading := isLoading c;
     accountName := accountName c; accountIndustry := accountIndustry c;
     accountPhone := x; accountDescription := accountDescription c;
     accountSite := accountSite c; editRecordId := editRecordId c;
     editName := editName c; editIndustry := editIndustry c;
     editPhone := editPhone c; editDescription := editDescription c;
     editSite := editSite c; wiredAccountsResult := wiredAccountsResult c;
     isEditingThisRow := isEditingThisRow c |}.

Definition set_accountDescription (x : value) (c : component) : component :=
  {| accounts := accounts c; error := error c; isLoading := isLoading c;
     accountName := accountName c; accountIndustry := accountIndustry c;
     accountPhone := accountPhone c; accountDescription := x;
     accountSite := accountSite c; editRecordId := editRecordId c;
     editName := editName c; editIndustry := editIndustry c;
     editPhone := editPhone c; editDescription := editDescription c;
     editSite := editSite c; wiredAccountsResult := wiredAccountsResult c;
     isEditingThisRow := isEditingThisRow c |}.

Definition set_accountSite (x : value) (c : component) : component :=
  {| accounts := accounts c; error := error c; isLoading := isLoading c;
     accountName := accountName c; accountIndustry := accountIndustry c;
     accountPhone := accountPhone c; accountDescription := accountDescription c;
     accountSite := x; editRecordId := editRecordId c;
     editName := editName c; editIndustry := editIndustry c;
     editPhone := editPhone c; editDescription := editDescription c;
     editSite := editSite c; wiredAccountsResult := wiredAccountsResult c;
     isEditingThisRow := isEditingThisRow c |}.

Definition set_editRecordId (x : value) (c : component) : component :=
  {| accounts := accounts c; error := error c; isLoading := isLoading c;
     accountName := accountName c; accountIndustry := accountIndustry c;
     accountPhone := accountPhone c; accountDescription := accountDescription c;
     accountSite := accountSite c; editRecordId := x;
     editName := editName c; editIndustry := editIndustry c;
     editPhone := editPhone c; editDescription := editDescription c;
     editSite := editSite c; wiredAccountsResult := wiredAccountsResult c;
     isEditingThisRow := isEditingThisRow c |}.

Definition set_editName (x : value) (c : component) : component :=
  {| accounts := accounts c; error := error c; isLoading := isLoading c;
     accountName := accountName c; accountIndustry := accountIndustry c;
     accountPhone := accountPhone c; accountDescription := accountDescription c;
     accountSite := accountSite c; editRecordId := editRecordId c;
     editName := x; editIndustry := editIndustry c;
     editPhone := editPhone c; editDescription := editDescription c;
     editSite := editSite c; wiredAccountsResult := wiredAccountsResult c;
     isEditingThisRow := isEditingThisRow c |}.

Definition set_editIndustry (x : value) (c : component) : component :=
  {| accounts := accounts c; error := error c; isLoading := isLoading c;
     accountName := accountName c; accountIndustry := accountIndustry c;
     accountPhone := accountPhone c; accountDescription := accountDescription c;
     accountSite := accountSite c; editRecordId := editRecordId c;
     editName := editName c; editIndustry := x;
     editPhone := editPhone c; editDescription := editDescription c;
     editSite := editSite c; wiredAccountsResult := wiredAccountsResult c;
     isEditingThisRow := isEditingThisRow c |}.

Definition set_editPhone (x : value) (c : component) : component :=
  {| accounts := accounts c; error := error c; isLoading := isLoading c;
     accountName := accountName c; accountIndustry := accountIndustry c;
     accountPhone := accountPhone c; accountDescription := accountDescription c;
     accountSite := accountSite c; editRecordId := editRecordId c;
     editName := editName c; editIndustry := editIndustry c;
     editPhone := x; editDescription := editDescription c;
     editSite := editSite c; wiredAccountsResult := wiredAccountsResult c;
     isEditingThisRow := isEditingThisRow c |}.

Definition set_editDescription (x : value) (c : component) : component :=
  {| accounts := accounts c; error := error c; isLoading := isLoading c;
     accountName := accountName c; accountIndustry := accountIndustry c;
     accountPhone := accountPhone c; accountDescription := accountDescription c;
     accountSite := accountSite c; editRecordId := editRecordId c;
     editName := editName c; editIndustry := editIndustry c;
     editPhone := editPhone c; editDescription := x;
     editSite := editSite c; wiredAccountsResult := wiredAccountsResult c;
     isEditingThisRow := isEditingThisRow c |}.

Definition set_editSite (x : value) (c : component) : component :=
  {| accounts := accounts c; error := error c; isLoading := isLoading c;
     accountName := accountName c; accountIndustry := accountIndustry c;
     accountPhone := accountPhone c; accountDescription := accountDescription c;
     accountSite := accountSite c; editRecordId := editRecordId c;
     editName := editName c; editIndustry := editIndustry c;
     editPhone := editPhone c; editDescription := editDescription c;
     editSite := x; wiredAccountsResult := wiredAccountsResult c;
     isEditingThisRow := isEditingThisRow c |}.

Definition set_wiredAccountsResult (x : value) (c : component) : component :=
  {| accounts := accounts c; error := error c; isLoading := isLoading c;
     accountName := accountName c; accountIndustry := accountIndustry c;
     accountPhone := accountPhone c; accountDescription := accountDescription c;
     accountSite := accountSite c; editRecordId := editRecordId c;
     editName := editName c; editIndustry := editIndustry c;
     editPhone := editPhone c; editDescription := editDescription c;
     editSite := editSite c; wiredAccountsResult := x;
     isEditingThisRow := isEditingThisRow c |}.

Definition set_isEditingThisRow (x : bool) (c : component) : component :=
  {| accounts := accounts c; error := error c; isLoading := isLoading c;
     accountName := accountName c; accountIndustry := accountIndustry c;
     accountPhone := accountPhone c; accountDescription := accountDescription c;
     accountSite := accountSite c; editRecordId := editRecordId c;
     editName := editName c; editIndustry := editIndustry c;
     editPhone := editPhone c; editDescription := editDescription c;
     editSite := editSite c; wiredAccountsResult := wiredAccountsResult c;
     isEditingThisRow := x |}.

(** ** Events, effects and the handler monad *)

(** What a handler reads off the DOM event it receives: [event.target.value],
    [event.target.name] and [event.target.dataset.id]. *)
Record event : Type := {
  target_value : value;
  target_name : value;
  target_dataset_id : value
}.

(** What the component sends out. *)
Inductive effect : Type :=
| Toast (title : string) (message : value) (variant : string)
| ConfirmPrompt (question : string)
| CreateCall (name industry phone description site : value)
| DeleteCall (accountId : value)
| UpdateCall (accountId name industry phone description site : value)
| RefreshCall (wired : value).

(** A run of a handler body: what it returned or threw, the component it
    left, and what it sent out, in order. *)
Record run (A : Type) : Type := {
  returned : outcome A;
  state : component;
  effects : list effect
}.
Arguments returned {A} r.
Arguments state {A} r.
Arguments effects {A} r.

Definition M (A : Type) : Type := component -> run A.

Definition ret {A : Type} (a : A) : M A :=
  fun c => {| returned := Normal a; state := c; effects := [] |}.

Definition bind {A B : Type} (m : M A) (k : A -> M B) : M B :=
  fun c =>
    let r := m c in
    match returned r with
    | Normal a =>
        let r' := k a (state r) in
        {| returned := returned r'; state := state r';
           effects := effects r ++ effects r' |}
    | Throws e =>
        {| returned := Throws e; state := state r; effects := effects r |}
    end.

Declare Scope js_scope.
Delimit Scope js_scope with js.
Notation "x <- m ;; k" := (bind m (fun x => k))
  (at level 61, m at next level, right associativity) : js_scope.
Notation "m ;; k" := (bind m (fun _ => k))
  (at level 61, right associativity) : js_scope.
Local Open Scope js_scope.

(** [this.f] *)
Definition read {A : Type} (f : component -> A) : M A :=
  fun c => {| returned := Normal (f c); state := c; effects := [] |}.

(** [this.f = x], with [upd] the setter applied to [x] *)
Definition assign (upd : component -> component) : M unit :=
  fun c => {| returned := Normal tt; state := upd c; effects := [] |}.

Definition emit (e : effect) : M unit :=
  fun c => {| returned := Normal tt; state := c; effects := [e] |}.

(** An expression that may throw. *)
Definition eval {A : Type} (o : outcome A) : M A :=
  fun c => {| returned := o; state := c; effects := [] |}.

(** *** Promise chains *)

(** A callback of [then] or [catch] run by the promise machinery: what it
    returns settles the derived promise, and what it throws rejects it. *)
Definition callback (body : M settled) : M settled :=
  fun c =>
    let r := body c in
    match returned r with
    | Normal s => r
    | Throws e =>
        {| returned := Normal (Rejected e); state := state r; effects := effects r |}
    end.

(** [p.then(f)] *)
Definition then_ (p : M settled) (f : value -> M settled) : M settled :=
  s <- p ;;
  match s with
  | Fulfilled v => callback (f v)
  | Rejected e => ret (Rejected e)
  end.

(** [p.catch(g)] *)
Definition catch_ (p : M settled) (g : value -> M settled) : M settled :=
  s <- p ;;
  match s with
  | Fulfilled v => ret (Fulfilled v)
  | Rejected e => callback (g e)
  end.

(** [p.finally(h)]: [h] runs either way and the settlement of [p] passes
    through, unless [h] throws. *)
Definition finally_ (p : M settled) (h : M unit) : M settled :=
  s <- p ;;
  callback (h ;; ret s).

(** ** The component's methods *)

(** [showToast(title, message, variant)]: one toast event dispatched. *)
Definition showToast (title : string) (message : value) (variant : string) : M unit :=
  emit (Toast title message variant).

(** [refreshApex(this.wiredAccountsResult)]: the request goes out and the
    promise it returns settles as the platform decides ([refreshed]). *)
Definition refreshApex (refreshed : settled) : M settled :=
  wired <- read wiredAccountsResult ;;
  emit (RefreshCall wired) ;;
  ret refreshed.

(** [wiredAccounts(result)] *)
Definition wiredAccounts (result : value) : M unit :=
  assign (set_wiredAccountsResult result) ;;
  data <- eval (get result "data") ;;
  if truthy data then
    data' <- eval (get result "data") ;;
    assign (set_accounts data') ;;
    assign (set_error VUndefined)
  else
    err <- eval (get result "error") ;;
    if truthy err then
      err' <- eval (get result "error") ;;
      assign (set_error err') ;;
      assign (set_accounts VUndefined) ;;
      showToast "Error" (VStr "Error loading accounts") "error"
    else ret tt.

Definition handleNameChange (ev : event) : M unit :=
  assign (set_accountName (target_value ev)).

Definition handleIndustryChange (ev : event) : M unit :=
  assign (set_accountIndustry (target_value ev)).

Definition handlePhoneChange (ev : event) : M unit :=
  assign (set_accountPhone (target_value ev)).

Definition handleDescriptionChange (ev : event) : M unit :=
  assign (set_accountDescription (target_value ev)).

Definition handleSiteChange (ev : event) : M unit :=
  assign (set_accountSite (target_value ev)).

(** [handleCreateAccount()], up to its return: the validation, and for a
    name that passes it the loading flag and the remote call.  The result
    says whether the call went out, that is, whether a promise chain is now
    waiting for it to settle. *)
Definition handleCreateAccount : M bool :=
  name <- read accountName ;;
  if negb (truthy name) then
    showToast "Error" (VStr "Account name is required") "error" ;;
    ret false
  else
    assign (set_isLoading true) ;;
    name <- read accountName ;;
    industry <- read accountIndustry ;;
    phone <- read accountPhone ;;
    description <- read accountDescription ;;
    site <- read accountSite ;;
    emit (CreateCall name industry phone description site) ;;
    ret true.

(** The chain [createAccount(..).then(..).catch(..).finally(..)], run when
    the remote call has settled as [remote]. *)
Definition handleCreateAccount_settled (remote refreshed : settled) : M settled :=
  finally_
    (catch_
       (then_ (ret remote)
          (fun result =>
             showToast "Success" (VStr "Account created successfully") "success" ;;
             assign (set_accountName (VStr "")) ;;
             assign (set_accountIndustry (VStr "")) ;;
             assign (set_accountPhone (VStr "")) ;;
             assign (set_accountDescription (VStr "")) ;;
             assign (set_accountSite (VStr "")) ;;
             refreshApex refreshed))
       (fun error =>
          body <- eval (get error "body") ;;
          message <- eval (get body "message") ;;
          showToast "Error" message "error" ;;
          ret (Fulfilled VUndefined)))
    (assign (set_isLoading false)).

(** [handleDeleteAccount(event)], up to its return; [confirmed] is the
    user's answer to the blocking prompt. *)
Definition handleDeleteAccount (ev : event) (confirmed : bool) : M bool :=
  let accountId := target_dataset_id ev in
  emit (ConfirmPrompt "Are you sure you want to delete this account?") ;;
  if confirmed then
    assign (set_isLoading true) ;;
    emit (DeleteCall accountId) ;;
    ret true
  else ret false.

Definition handleDeleteAccount_settled (remote refreshed : settled) : M settled :=
  finally_
    (catch_
       (then_ (ret remote)
          (fun _ =>
             showToast "Success" (VStr "Account deleted successfully") "success" ;;
             refreshApex refreshed))
       (fun error =>
          body <- eval (get error "body") ;;
          showToast "Error" (or_else (get_opt body "message") (VStr "Delete failed")) "error" ;;
          ret (Fulfilled VUndefined)))
    (assign (set_isLoading false)).

(** [renderedCallback()]; [current] is what the template query finds: the
    [data-current-id] of the first card that has one, if any. *)
Definition renderedCallback (current : option string) : M unit :=
  match current with
  | Some currentId =>
      id <- read editRecordId ;;
      assign (set_isEditingThisRow (strict_eq id (VStr currentId)))
  | None => assign (set_isEditingThisRow false)
  end.

(** [handleStartEdit(event)] *)
Definition handleStartEdit (ev : event) : M unit :=
  let accountId := target_dataset_id ev in
  coll <- read accounts ;;
  record <- eval (find coll accountId) ;;
  if negb (truthy record) then
    showToast "Error" (VStr "Account not found in the current list") "error"
  else
    assign (set_editRecordId accountId) ;;
    name <- eval (get record "Name") ;;
    assign (set_editName (or_else name (VStr ""))) ;;
    industry <- eval (get record "Industry") ;;
    assign (set_editIndustry (or_else industry (VStr ""))) ;;
    phone <- eval (get record "Phone") ;;
    assign (set_editPhone (or_else phone (VStr ""))) ;;
    description <- eval (get record "Description") ;;
    assign (set_editDescription (or_else description (VStr ""))) ;;
    site <- eval (get record "Site") ;;
    assign (set_editSite (or_else site (VStr ""))).

Definition when (b : bool) (m : M unit) : M unit :=
  if b then m else ret tt.

(** [handleEditFieldChange(event)] *)
Definition handleEditFieldChange (ev : event) : M unit :=
  let field := target_name ev in
  let value := target_value ev in
  when (strict_eq field (VStr "editName")) (assign (set_editName value)) ;;
  when (strict_eq field (VStr "editIndustry")) (assign (set_editIndustry value)) ;;
  when (strict_eq field (VStr "editPhone")) (assign (set_editPhone value)) ;;
  when (strict_eq field (VStr "editDescription")) (assign (set_editDescription value)) ;;
  when (strict_eq field (VStr "editSite")) (assign (set_editSite value)).

(** [handleCancelEdit()] *)
Definition handleCancelEdit : M unit :=
  assign (set_editRecordId VNull) ;;
  assign (set_editName (VStr "")) ;;
  assign (set_editIndustry (VStr "")) ;;
  assign (set_editPhone (VStr "")) ;;
  assign (set_editDescription (VStr "")) ;;
  assign (set_editSite (VStr "")).

(** [handleSaveEdit()], up to its return. *)
Definition handleSaveEdit : M bool :=
  id <- read editRecordId ;;
  if negb (truthy id) then
    showToast "Error" (VStr "No record selected for update") "error" ;;
    ret false
  else
    name <- read editName ;;
    if negb (truthy name) then
      showToast "Error" (VStr "Name is required") "error" ;;
      ret false
    else
      assign (set_isLoading true) ;;
      id <- read editRecordId ;;
      name <- read editName ;;
      industry <- read editIndustry ;;
      phone <- read editPhone ;;
      description <- read editDescription ;;
      site <- read editSite ;;
      emit (UpdateCall id name industry phone description site) ;;
      ret true.

Definition handleSaveEdit_settled (remote refreshed : settled) : M settled :=
  finally_
    (catch_
       (then_ (ret remote)
          (fun _ =>
             showToast "Success" (VStr "Account updated successfully") "success" ;;
             handleCancelEdit ;;
             refreshApex refreshed))
       (fun error =>
          body <- eval (get error "body") ;;
          showToast "Error" (or_else (get_opt body "message") (VStr "Update failed")) "error" ;;
          ret (Fulfilled VUndefined)))
    (assign (set_isLoading false)).

(** A whole operation when nothing comes in between: the handler, and, when
    it sent its remote call, the chain run on the settlement of that call. *)
Definition operation (handler : M bool) (chain : M settled) : M unit :=
  waiting <- handler ;;
  if waiting then chain ;; ret tt else ret tt.

(** ** Reading a run *)

Definition is_toast (e : effect) : bool :=
  match e with
  | Toast _ _ _ => true
  | _ => false
  end.

Definition is_error_toast (e : effect) : bool :=
  match e with
  | Toast _ _ variant => variant =? "error"
  | _ => false
  end.

Definition is_remote_call (e : effect) : bool :=
  match e with
  | CreateCall _ _ _ _ _ | DeleteCall _ | UpdateCall _ _ _ _ _ _ => true
  | _ => false
  end.

Definition is_refresh (e : effect) : bool :=
  match e with
  | RefreshCall _ => true
  | _ => false
  end.

Definition count (p : effect -> bool) (l : list effect) : nat :=
  length (filter p l).

(** The create form and the edit form, as the tuples of their fields. *)
Definition create_form (c : component) : value * value * value * value * value :=
  (accountName c, accountIndustry c, accountPhone c, accountDescription c,
   accountSite c).

Definition edit_form (c : component) : value * value * value * value * value * value :=
  (editRecordId c, editName c, editIndustry c, editPhone c, editDescription c,
   editSite c).

(** A slot of the component holds something when it is not [undefined]. *)
Definition populated (v : value) : bool :=
  match v with
  | VUndefined => false
  | _ => true
  end.

Definition exactly_one_populated (c : component) : bool :=
  xorb (populated (accounts c)) (populated (error c)).

(** A field of an account record is a string, or missing. *)
Definition is_text_or_missing (v : value) : bool :=
  match v with
  | VStr _ | VUndefined | VNull => true
  | _ => false
  end.

(** The string of a field, the empty string for a missing one. *)
Definition text_or_empty (v : value) : value :=
  match v with
  | VStr s => VStr s
  | _ => VStr ""
  end.

Definition record_fields : list string :=
  ["Name"; "Industry"; "Phone"; "Description"; "Site"].

(** The result object the wire service hands to [wiredAccounts]. *)
Definition wire_result (data err : value) : value :=
  VObj [("data", data); ("error", err)].

(** ** Sample data *)

(** Two account records, the first with a name only. *)
Definition acme : value :=
  VObj [("Id", VStr "1"); ("Name", VStr "Acme")].

Definition globex : value :=
  VObj [("Id", VStr "2"); ("Name", VStr "Globex"); ("Industry", VStr "Energy");
        ("Phone", VStr "555-0100"); ("Site", VStr "HQ")].

(** An error of the remote service. *)
Definition fetch_error : value :=
  VObj [("body", VObj [("message", VStr "Insufficient access")]);
        ("status", VNum 500)].

(** A click on the control of the row with the given id. *)
Definition click (id : string) : event :=
  {| target_value := VUndefined; target_name := VUndefined;
     target_dataset_id := VStr id |}.

(** A create form with the industry typed in and the name left empty. *)
Definition nameless_form : component :=
  set_accountIndustry (VStr "Energy") initial.

(** A create form with the name typed in. *)
Definition named_form : component :=
  set_accountName (VStr "Initech") initial.

(** The component with both accounts fetched. *)
Definition listing : component :=
  state (wiredAccounts (wire_result (VArr [acme; globex]) VUndefined) initial).

(** The component while the second account is being edited. *)
Definition editing_globex : component :=
  state (handleStartEdit (click "2") listing).

(** ** The component in use *)

(** What can happen to the component: the platform delivers a wire result,
    the user acts on a control, a render pass ends, or a remote call that
    was sent settles. *)
Inductive action : Type :=
| Wired (result : value)
| NameChange (ev : event)
| IndustryChange (ev : event)
| PhoneChange (ev : event)
| DescriptionChange (ev : event)
| SiteChange (ev : event)
| CreateAccount
| CreateSettled (remote refreshed : settled)
| DeleteAccount (ev : event) (confirmed : bool)
| DeleteSettled (remote refreshed : settled)
| Rendered (current : option string)
| StartEdit (ev : event)
| EditFieldChange (ev : event)
| CancelEdit
| SaveEdit
| SaveSettled (remote refreshed : settled).

(** The component an action leaves.  A handler that throws stops where it
    threw; the component stays as it was at that point and later actions
    run on it. *)
Definition after (a : action) (c : component) : component :=
  match a with
  | Wired result => state (wiredAccounts result c)
  | NameChange ev => state (handleNameChange ev c)
  | IndustryChange ev => state (handleIndustryChange ev c)
  | PhoneChange ev => state (handlePhoneChange ev c)
  | DescriptionChange ev => state (handleDescriptionChange ev c)
  | SiteChange ev => state (handleSiteChange ev c)
  | CreateAccount => state (handleCreateAccount c)
  | CreateSettled remote refreshed =>
      state (handleCreateAccount_settled remote refreshed c)
  | DeleteAccount ev confirmed => state (handleDeleteAccount ev confirmed c)
  | DeleteSettled remote refreshed =>
      state (handleDeleteAccount_settled remote refreshed c)
  | Rendered current => state (renderedCallback current c)
  | StartEdit ev => state (handleStartEdit ev c)
  | EditFieldChange ev => state (handleEditFieldChange ev c)
  | CancelEdit => state (handleCancelEdit c)
  | SaveEdit => state (handleSaveEdit c)
  | SaveSettled remote refreshed =>
      state (handleSaveEdit_settled remote refreshed c)
  end.

(** What an action sends out. *)
Definition sent (a : action) (c : component) : list effect :=
  match a with
  | Wired result => effects (wiredAccounts result c)
  | NameChange ev => effects (handleNameChange ev c)
  | IndustryChange ev => effects (handleIndustryChange ev c)
  | PhoneChange ev => effects (handlePhoneChange ev c)
  | DescriptionChange ev => effects (handleDescriptionChange ev c)
  | SiteChange ev => effects (handleSiteChange ev c)
  | CreateAccount => effects (handleCreateAccount c)
  | CreateSettled remote refreshed =>
      effects (handleCreateAccount_settled remote refreshed c)
  | DeleteAccount ev confirmed => effects (handleDeleteAccount ev confirmed c)
  | DeleteSettled remote refreshed =>
      effects (handleDeleteAccount_settled remote refreshed c)
  | Rendered current => effects (renderedCallback current c)
  | StartEdit ev => effects (handleStartEdit ev c)
  | EditFieldChange ev => effects (handleEditFieldChange ev c)
  | CancelEdit => effects (handleCancelEdit c)
  | SaveEdit => effects (handleSaveEdit c)
  | SaveSettled remote refreshed =>
      effects (handleSaveEdit_settled remote refreshed c)
  end.

(** The component after a sequence of actions, first to last. *)
Fixpoint after_all (actions : list action) (c : component) : component :=
  match actions with
  | [] => c
  | a :: rest => after_all rest (after a c)
  end.

(** Which actions may write which part of the component. *)
Definition writes_cache (a : action) : bool :=
  match a with
  | Wired _ => true
  | _ => false
  end.

Definition writes_create_form (a : action) : bool :=
  match a with
  | NameChange _ | IndustryChange _ | PhoneChange _ | DescriptionChange _
  | SiteChange _ => true
  | CreateSettled (Fulfilled _) _ => true
  | _ => false
  end.

Definition writes_edit_form (a : action) : bool :=
  match a with
  | StartEdit _ | EditFieldChange _ | CancelEdit => true
  | SaveSettled (Fulfilled _) _ => true
  | _ => false
  end.

Definition writes_loading (a : action) : bool :=
  match a with
  | CreateAccount | DeleteAccount _ _ | SaveEdit => true
  | CreateSettled _ _ | DeleteSettled _ _ | SaveSettled _ _ => true
  | _ => false
  end.

Definition is_fulfilled_settlement (a : action) : bool :=
  match a with
  | CreateSettled (Fulfilled _) _ | DeleteSettled (Fulfilled _) _
  | SaveSettled (Fulfilled _) _ => true
  | _ => false
  end.

Definition is_success_toast (e : effect) : bool :=
  match e with
  | Toast _ _ variant => variant =? "success"
  | _ => false
  end.

(** The two shapes of toast the component has. *)
Definition toast_shape_ok (e : effect) : bool :=
  match e with
  | Toast title _ variant =>
      ((title =? "Success") && (variant =? "success"))
      || ((title =? "Error") && (variant =? "error"))
  | _ => true
  end.

(** The names [handleEditFieldChange] knows. *)
Definition edit_field_names : list string :=
  ["editName"; "editIndustry"; "editPhone"; "editDescription"; "editSite"].

(** An input event: the control's name and the text in it. *)
Definition typed (name text : string) : event :=
  {| target_value := VStr text; target_name := VStr name;
     target_dataset_id := VUndefined |}.

(** The component while the first account is being edited, and the same
    with its name field emptied. *)
Definition editing_acme : component :=
  state (handleStartEdit (click "1") listing).

Definition editing_acme_blank : component :=
  state (handleEditFieldChange (typed "editName" "") editing_acme).

(** Unfolds a handler down to the reads, assignments and effects it is made
    of. *)
Ltac run_handler :=
  cbv [handleCreateAccount handleCreateAccount_settled
       handleDeleteAccount handleDeleteAccount_settled
       handleSaveEdit handleSaveEdit_settled handleCancelEdit
       handleStartEdit wiredAccounts refreshApex showToast
       operation finally_ catch_ then_ callback bind ret read assign emit eval
       returned state effects app].

(** Splits a run on the tests and settlements it depends on. *)
Ltac split_run :=
  repeat first
    [ progress cbn
    | match goal with
      | |- context [match ?x with Normal _ => _ | Throws _ => _ end] => destruct x
      | |- context [match ?x with Fulfilled _ => _ | Rejected _ => _ end] => destruct x
      | |- context [match ?x with Some _ => _ | None => _ end] => destruct x
      | |- context [if ?b then _ else _] => destruct b
      end ].

(** The same for the handlers that only assign. *)
Ltac run_assignments :=
  cbv [handleNameChange handleIndustryChange handlePhoneChange
       handleDescriptionChange handleSiteChange handleEditFieldChange
       renderedCallback handleCancelEdit when
       bind ret read assign emit eval returned state effects app].

(** ** Properties *)

(** *** Facts about values *)

Lemma truthy_not_nullish (v : value) : truthy v = true -> nullish v = false.
Proof. destruct v; simpl; congruence. Qed.

Lemma get_not_nullish (v : value) (key : string) :
  nullish v = false -> get v key = Normal (prop v key).
Proof. intros H. unfold get. now rewrite H. Qed.

Lemma get_truthy (v : value) (key : string) :
  truthy v = true -> get v key = Normal (prop v key).
Proof. intros H. apply get_not_nullish, truthy_not_nullish, H. Qed.

(** *** Create: validation *)

(** C1. When the create form is submitted while the name field is the empty
    string, the handler dispatches one error toast and nothing else (no
    remote call goes out and no promise chain is left waiting), and it leaves
    the component as it was: the five create-form fields, the loading flag
    and the cached collection are unchanged. *)
Theorem create_with_empty_name_is_refused (c : component) :
  accountName c = VStr "" ->
  let r := handleCreateAccount c in
  returned r = Normal false /\
  effects r = [Toast "Error" (VStr "Account name is required") "error"] /\
  count is_error_toast (effects r) = 1 /\
  count is_remote_call (effects r) = 0 /\
  state r = c /\
  create_form (state r) = create_form c /\
  isLoading (state r) = isLoading c /\
  accounts (state r) = accounts c /\
  forall remote refreshed : settled,
    operation handleCreateAccount
      (handleCreateAccount_settled remote refreshed) c =
    {| returned := Normal tt; state := c;
       effects := [Toast "Error" (VStr "Account name is required") "error"] |}.
Proof.
  intros Hname. run_handler. rewrite Hname. cbn. repeat split.
Qed.

Lemma create_with_empty_name_is_refused_witness :
  let r := handleCreateAccount nameless_form in
  returned r = Normal false /\
  effects r = [Toast "Error" (VStr "Account name is required") "error"] /\
  count is_error_toast (effects r) = 1 /\
  count is_remote_call (effects r) = 0 /\
  state r = nameless_form /\
  create_form (state r) = create_form nameless_form /\
  isLoading (state r) = isLoading nameless_form /\
  accounts (state r) = accounts nameless_form /\
  forall remote refreshed : settled,
    operation handleCreateAccount
      (handleCreateAccount_settled remote refreshed) nameless_form =
    {| returned := Normal tt; state := nameless_form;
       effects := [Toast "Error" (VStr "Account name is required") "error"] |}.
Proof.
  apply (create_with_empty_name_is_refused nameless_form). reflexivity.
Defined.

(** *** Delete: the confirmation prompt *)

(** C9. When the user declines the confirmation prompt of a delete, the
    prompt is all that happened: no remote call and no refresh go out, no
    toast is dispatched, no promise chain is left waiting, and the component
    (loading flag and cached collection included) is as it was. *)
Theorem declined_delete_does_nothing (ev : event) (c : component) :
  let r := handleDeleteAccount ev false c in
  returned r = Normal false /\
  effects r = [ConfirmPrompt "Are you sure you want to delete this account?"] /\
  count is_remote_call (effects r) = 0 /\
  count is_refresh (effects r) = 0 /\
  count is_toast (effects r) = 0 /\
  state r = c /\
  isLoading (state r) = isLoading c /\
  accounts (state r) = accounts c /\
  forall remote refreshed : settled,
    operation (handleDeleteAccount ev false)
      (handleDeleteAccount_settled remote refreshed) c =
    {| returned := Normal tt; state := c;
       effects := [ConfirmPrompt "Are you sure you want to delete this account?"] |}.
Proof.
  run_handler. cbn. repeat split.
Qed.

(** *** Edit: cancel *)

(** C8. Cancel sets the editing id to [null] and the five edit-form fields to
    the empty string, whatever they held, and sends nothing out; so a
    start-edit followed by cancel, however the start-edit ended, leaves the
    edit form as the class initialises it, with no remote call made. *)
Theorem cancel_resets_edit_form (c : component) (ev : event) :
  (let r := handleCancelEdit c in
   returned r = Normal tt /\
   effects r = [] /\
   editRecordId (state r) = VNull /\
   editName (state r) = VStr "" /\
   editIndustry (state r) = VStr "" /\
   editPhone (state r) = VStr "" /\
   editDescription (state r) = VStr "" /\
   editSite (state r) = VStr "") /\
  (let started := handleStartEdit ev c in
   let cancelled := handleCancelEdit (state started) in
   edit_form (state cancelled) = edit_form initial /\
   count is_remote_call (effects started ++ effects cancelled) = 0).
Proof.
  split.
  - run_handler. cbn. repeat split.
  - cbn zeta. split; [reflexivity|].
    unfold handleCancelEdit at 1. cbn [effects bind assign returned state app].
    rewrite app_nil_r.
    run_handler.
    destruct (find (accounts c) (target_dataset_id ev)) as [record|exn]; [|reflexivity].
    destruct (negb (truthy record)); [reflexivity|].
    repeat match goal with
    | |- context [get ?v ?k] => destruct (get v k); cbn; try reflexivity
    end.
Qed.

(** *** The wire handler *)

(** What [wiredAccounts] does, by the two tests it makes on its argument. *)
Lemma wiredAccounts_data (result : value) (c : component) :
  nullish result = false ->
  truthy (prop result "data") = true ->
  wiredAccounts result c =
  {| returned := Normal tt;
     state := set_error VUndefined
                (set_accounts (prop result "data")
                   (set_wiredAccountsResult result c));
     effects := [] |}.
Proof.
  intros Hobj Hdata. run_handler.
  rewrite (get_not_nullish _ _ Hobj). cbn. rewrite Hdata. reflexivity.
Qed.

Lemma wiredAccounts_error (result : value) (c : component) :
  nullish result = false ->
  truthy (prop result "data") = false ->
  truthy (prop result "error") = true ->
  wiredAccounts result c =
  {| returned := Normal tt;
     state := set_accounts VUndefined
                (set_error (prop result "error")
                   (set_wiredAccountsResult result c));
     effects := [Toast "Error" (VStr "Error loading accounts") "error"] |}.
Proof.
  intros Hobj Hdata Herr. run_handler.
  rewrite !(get_not_nullish _ _ Hobj). cbn. rewrite Hdata. cbn.
  rewrite Herr. reflexivity.
Qed.

Lemma wiredAccounts_neither (result : value) (c : component) :
  nullish result = false ->
  truthy (prop result "data") = false ->
  truthy (prop result "error") = false ->
  wiredAccounts result c =
  {| returned := Normal tt;
     state := set_wiredAccountsResult result c;
     effects := [] |}.
Proof.
  intros Hobj Hdata Herr. run_handler.
  rewrite !(get_not_nullish _ _ Hobj). cbn. rewrite Hdata. cbn.
  rewrite Herr. reflexivity.
Qed.

Lemma populated_truthy (v : value) : truthy v = true -> populated v = true.
Proof. destruct v; simpl; congruence. Qed.

(** C3 does not hold of every invocation.  On the result the wire service
    delivers before the fetch has completed,
    [{data: undefined, error: undefined}], and a fresh component, neither
    branch of the handler runs: afterwards neither the cached collection nor
    the error slot holds anything. *)
Lemma wiredAccounts_pending_result_populates_neither :
  let r := wiredAccounts (wire_result VUndefined VUndefined) initial in
  returned r = Normal tt /\
  populated (accounts (state r)) = false /\
  populated (error (state r)) = false /\
  exactly_one_populated (state r) = false.
Proof. repeat split. Qed.

(** C3, amended.  After an invocation of the wire handler whose result
    carries a truthy [data] or a truthy [error], exactly one of the cached
    collection and the error slot holds something and the other is
    [undefined]; an invocation whose result carries neither leaves both
    slots as they were. *)
Theorem wiredAccounts_one_slot_when_settled (result : value) (c : component) :
  nullish result = false ->
  let r := wiredAccounts result c in
  (truthy (prop result "data") || truthy (prop result "error") = true ->
   exactly_one_populated (state r) = true) /\
  (truthy (prop result "data") || truthy (prop result "error") = false ->
   accounts (state r) = accounts c /\ error (state r) = error c).
Proof.
  intros Hobj r. subst r.
  destruct (truthy (prop result "data")) eqn:Hdata.
  - rewrite (wiredAccounts_data _ _ Hobj Hdata). split; [|discriminate].
    intros _. unfold exactly_one_populated. cbn.
    now rewrite (populated_truthy _ Hdata).
  - destruct (truthy (prop result "error")) eqn:Herr.
    + rewrite (wiredAccounts_error _ _ Hobj Hdata Herr). split; [|discriminate].
      intros _. unfold exactly_one_populated. cbn.
      now rewrite (populated_truthy _ Herr).
    + rewrite (wiredAccounts_neither _ _ Hobj Hdata Herr). split; [discriminate|].
      intros _. split; reflexivity.
Qed.

Lemma wiredAccounts_one_slot_when_settled_witness :
  (exactly_one_populated
     (state (wiredAccounts (wire_result (VArr [acme; globex]) VUndefined) initial))
   = true) /\
  (exactly_one_populated
     (state (wiredAccounts (wire_result VUndefined fetch_error) initial))
   = true) /\
  (accounts (state (wiredAccounts (wire_result VUndefined VUndefined) initial))
   = accounts initial /\
   error (state (wiredAccounts (wire_result VUndefined VUndefined) initial))
   = error initial).
Proof.
  split; [|split].
  - apply (wiredAccounts_one_slot_when_settled
             (wire_result (VArr [acme; globex]) VUndefined) initial);
      reflexivity.
  - apply (wiredAccounts_one_slot_when_settled
             (wire_result VUndefined fetch_error) initial);
      reflexivity.
  - apply (wiredAccounts_one_slot_when_settled
             (wire_result VUndefined VUndefined) initial);
      reflexivity.
Defined.

(** C4. After the wire handler runs on the result of a successful fetch, the
    error slot is [undefined] and the cached collection is the returned
    array itself, same elements in the same order, and no toast is
    dispatched; after it runs on the result of a failed fetch (no data, an
    error), the cached collection is [undefined], the error slot holds the
    error, and exactly one error toast is dispatched. *)
Theorem wiredAccounts_stores_fetch_outcome (result : value) (c : component) :
  nullish result = false ->
  let r := wiredAccounts result c in
  (forall rows : list value,
     prop result "data" = VArr rows ->
     returned r = Normal tt /\
     accounts (state r) = VArr rows /\
     error (state r) = VUndefined /\
     effects r = []) /\
  (truthy (prop result "data") = false ->
   truthy (prop result "error") = true ->
   returned r = Normal tt /\
   accounts (state r) = VUndefined /\
   error (state r) = prop result "error" /\
   effects r = [Toast "Error" (VStr "Error loading accounts") "error"] /\
   count is_error_toast (effects r) = 1 /\
   count is_toast (effects r) = 1).
Proof.
  intros Hobj r. subst r. split.
  - intros rows Hrows.
    assert (Hdata : truthy (prop result "data") = true) by now rewrite Hrows.
    rewrite (wiredAccounts_data _ _ Hobj Hdata). cbn. rewrite Hrows.
    repeat split.
  - intros Hdata Herr.
    rewrite (wiredAccounts_error _ _ Hobj Hdata Herr). cbn. repeat split.
Qed.

Lemma wiredAccounts_stores_fetch_outcome_witness :
  (let r := wiredAccounts (wire_result (VArr [acme; globex]) VUndefined) initial in
   returned r = Normal tt /\
   accounts (state r) = VArr [acme; globex] /\
   error (state r) = VUndefined /\
   effects r = []) /\
  (let r := wiredAccounts (wire_result VUndefined fetch_error) initial in
   returned r = Normal tt /\
   accounts (state r) = VUndefined /\
   error (state r) = fetch_error /\
   effects r = [Toast "Error" (VStr "Error loading accounts") "error"] /\
   count is_error_toast (effects r) = 1 /\
   count is_toast (effects r) = 1).
Proof.
  split.
  - apply (wiredAccounts_stores_fetch_outcome
             (wire_result (VArr [acme; globex]) VUndefined) initial);
      reflexivity.
  - apply (wiredAccounts_stores_fetch_outcome
             (wire_result VUndefined fetch_error) initial);
      reflexivity.
Defined.

(** *** Edit: start *)

(** What [handleStartEdit] does, by the outcome of the lookup. *)
Lemma handleStartEdit_throws (ev : event) (c : component) (exn : value) :
  find (accounts c) (target_dataset_id ev) = Throws exn ->
  handleStartEdit ev c = {| returned := Throws exn; state := c; effects := [] |}.
Proof. intros H. run_handler. rewrite H. reflexivity. Qed.

Lemma handleStartEdit_not_found (ev : event) (c : component) (record : value) :
  find (accounts c) (target_dataset_id ev) = Normal record ->
  truthy record = false ->
  handleStartEdit ev c =
  {| returned := Normal tt; state := c;
     effects := [Toast "Error" (VStr "Account not found in the current list") "error"] |}.
Proof. intros H Hfalsy. run_handler. rewrite H. cbn. rewrite Hfalsy. reflexivity. Qed.

Lemma handleStartEdit_found (ev : event) (c : component) (record : value) :
  find (accounts c) (target_dataset_id ev) = Normal record ->
  truthy record = true ->
  handleStartEdit ev c =
  {| returned := Normal tt;
     state :=
       set_editSite (or_else (prop record "Site") (VStr ""))
         (set_editDescription (or_else (prop record "Description") (VStr ""))
            (set_editPhone (or_else (prop record "Phone") (VStr ""))
               (set_editIndustry (or_else (prop record "Industry") (VStr ""))
                  (set_editName (or_else (prop record "Name") (VStr ""))
                     (set_editRecordId (target_dataset_id ev) c)))));
     effects := [] |}.
Proof.
  intros H Htruthy. run_handler. rewrite H. cbn. rewrite Htruthy.
  rewrite !(get_truthy _ _ Htruthy). reflexivity.
Qed.

(** The lookup on a list of records. *)
Lemma strict_eq_str (v : value) (X : string) :
  strict_eq v (VStr X) = true <-> v = VStr X.
Proof.
  destruct v; simpl; split; try discriminate.
  - intros H. apply String.eqb_eq in H. now subst.
  - intros H. injection H as ->. apply String.eqb_refl.
Qed.

Lemma strict_eq_str_false (v : value) (X : string) :
  v <> VStr X -> strict_eq v (VStr X) = false.
Proof.
  intros H. destruct (strict_eq v (VStr X)) eqn:E; [|reflexivity].
  apply strict_eq_str in E. contradiction.
Qed.

Lemma object_not_nullish (v : value) : is_object v = true -> nullish v = false.
Proof. destruct v; simpl; congruence. Qed.

Lemma object_truthy (v : value) : is_object v = true -> truthy v = true.
Proof. destruct v; simpl; congruence. Qed.

Lemma find_by_Id_none (rows : list value) (X : string) :
  Forall (fun a => is_object a = true) rows ->
  (forall a, In a rows -> prop a "Id" <> VStr X) ->
  find_by_Id rows (VStr X) = Normal VUndefined.
Proof.
  induction rows as [|a rows IH]; intros Hobj Hnone; [reflexivity|].
  inversion Hobj as [|? ? Ha Hrows]; subst. simpl.
  rewrite (get_not_nullish _ _ (object_not_nullish _ Ha)).
  rewrite strict_eq_str_false by (apply Hnone; now left).
  apply IH; [assumption|]. intros b Hb. apply Hnone. now right.
Qed.

Lemma find_by_Id_first (before after : list value) (record : value) (X : string) :
  Forall (fun a => is_object a = true) (before ++ record :: after) ->
  (forall a, In a before -> prop a "Id" <> VStr X) ->
  prop record "Id" = VStr X ->
  find_by_Id (before ++ record :: after) (VStr X) = Normal record.
Proof.
  induction before as [|a before IH]; intros Hobj Hnone Hid.
  - inversion Hobj as [|? ? Ha Hrows]; subst. simpl.
    rewrite (get_not_nullish _ _ (object_not_nullish _ Ha)).
    now rewrite (proj2 (strict_eq_str _ _) Hid).
  - inversion Hobj as [|? ? Ha Hrows]; subst. simpl.
    rewrite (get_not_nullish _ _ (object_not_nullish _ Ha)).
    rewrite strict_eq_str_false by (apply Hnone; now left).
    apply IH; [assumption| |assumption]. intros b Hb. apply Hnone. now right.
Qed.

(** On a list of records the lookup never throws: it gives one of the
    records or [undefined]. *)
Lemma find_by_Id_total (rows : list value) (accountId : value) :
  Forall (fun a => is_object a = true) rows ->
  exists found,
    find_by_Id rows accountId = Normal found /\
    (found = VUndefined \/ is_object found = true).
Proof.
  induction rows as [|a rows IH]; intros Hobj.
  - exists VUndefined. split; [reflexivity|now left].
  - inversion Hobj as [|? ? Ha Hrows]; subst. simpl.
    rewrite (get_not_nullish _ _ (object_not_nullish _ Ha)).
    destruct (strict_eq (prop a "Id") accountId).
    + exists a. split; [reflexivity|now right].
    + apply IH, Hrows.
Qed.

(** When some record has the id, there is a first one. *)
Lemma first_with_Id (rows : list value) (X : string) :
  (exists a, In a rows /\ prop a "Id" = VStr X) ->
  exists before record after,
    rows = before ++ record :: after /\
    (forall a, In a before -> prop a "Id" <> VStr X) /\
    prop record "Id" = VStr X.
Proof.
  induction rows as [|a rows IH]; intros [b [Hin Hid]]; [contradiction|].
  destruct (strict_eq (prop a "Id") (VStr X)) eqn:E.
  - exists [], a, rows. repeat split; [intros ? []|now apply strict_eq_str].
  - assert (Hne : prop a "Id" <> VStr X).
    { intros H. apply strict_eq_str in H. congruence. }
    destruct Hin as [->|Hin]; [contradiction|].
    destruct IH as (before & record & after & -> & Hnone & Hrec);
      [now exists b|].
    exists (a :: before), record, after. repeat split; [|assumption].
    intros x [<-|Hx]; [assumption|now apply Hnone].
Qed.

(** [or_else] on a field that is a string or missing. *)
Lemma or_else_text (v : value) :
  is_text_or_missing v = true -> or_else v (VStr "") = text_or_empty v.
Proof.
  destruct v; simpl; try discriminate; try reflexivity.
  intros _. unfold or_else. simpl. destruct s; reflexivity.
Qed.

(** C6. Start-edit on id [X] against a cached collection of account records.
    If a record with id [X] is present, the editing id becomes [X] and the
    five edit-form fields become the name, industry, phone, description and
    site of the first such record, the empty string standing in for a field
    the record does not have, and no toast is dispatched.  If no record has
    id [X], the component (editing id and edit-form fields included) is
    unchanged and exactly one error toast is dispatched. *)
Theorem start_edit_copies_the_record
    (ev : event) (c : component) (X : string) (rows : list value) :
  target_dataset_id ev = VStr X ->
  accounts c = VArr rows ->
  Forall (fun a => is_object a = true) rows ->
  let r := handleStartEdit ev c in
  (forall before record after,
     rows = before ++ record :: after ->
     (forall a, In a before -> prop a "Id" <> VStr X) ->
     prop record "Id" = VStr X ->
     (forall k, In k record_fields -> is_text_or_missing (prop record k) = true) ->
     returned r = Normal tt /\
     effects r = [] /\
     editRecordId (state r) = VStr X /\
     editName (state r) = text_or_empty (prop record "Name") /\
     editIndustry (state r) = text_or_empty (prop record "Industry") /\
     editPhone (state r) = text_or_empty (prop record "Phone") /\
     editDescription (state r) = text_or_empty (prop record "Description") /\
     editSite (state r) = text_or_empty (prop record "Site")) /\
  ((forall a, In a rows -> prop a "Id" <> VStr X) ->
   returned r = Normal tt /\
   state r = c /\
   edit_form (state r) = edit_form c /\
   effects r = [Toast "Error" (VStr "Account not found in the current list") "error"] /\
   count is_error_toast (effects r) = 1 /\
   count is_toast (effects r) = 1).
Proof.
  intros Hid Hacc Hobj r. subst r. split.
  - intros before record after -> Hnone Hrec Hfields.
    assert (Hrecord : is_object record = true).
    { rewrite Forall_forall in Hobj. apply Hobj, in_elt. }
    rewrite (handleStartEdit_found ev c record).
    + cbn. rewrite Hid.
      rewrite !or_else_text by (apply Hfields; unfold record_fields; simpl; tauto).
      repeat split.
    + rewrite Hacc, Hid. simpl. now apply find_by_Id_first.
    + now apply object_truthy.
  - intros Hnone.
    rewrite (handleStartEdit_not_found ev c VUndefined).
    + repeat split.
    + rewrite Hacc, Hid. simpl. now apply find_by_Id_none.
    + reflexivity.
Qed.

Lemma start_edit_copies_the_record_witness :
  (let r := handleStartEdit
              (click "1")
              (set_accounts (VArr [acme]) initial) in
   returned r = Normal tt /\
   effects r = [] /\
   editRecordId (state r) = VStr "1" /\
   editName (state r) = VStr "Acme" /\
   editIndustry (state r) = VStr "" /\
   editPhone (state r) = VStr "" /\
   editDescription (state r) = VStr "" /\
   editSite (state r) = VStr "") /\
  (let c := set_editRecordId (VStr "1") (set_accounts (VArr [acme]) initial) in
   let r := handleStartEdit
              (click "999") c in
   returned r = Normal tt /\
   state r = c /\
   edit_form (state r) = edit_form c /\
   effects r = [Toast "Error" (VStr "Account not found in the current list") "error"] /\
   count is_error_toast (effects r) = 1 /\
   count is_toast (effects r) = 1).
Proof.
  split.
  - refine (proj1 (start_edit_copies_the_record
                     (click "1")
                     (set_accounts (VArr [acme]) initial) "1" [acme]
                     eq_refl eq_refl _) [] acme [] eq_refl _ eq_refl _).
    + repeat constructor.
    + intros a [].
    + intros k Hk. simpl in Hk.
      repeat (destruct Hk as [<-|Hk]; [reflexivity|]). contradiction.
  - refine (proj2 (start_edit_copies_the_record
                     (click "999")
                     (set_editRecordId (VStr "1") (set_accounts (VArr [acme]) initial))
                     "999" [acme] eq_refl eq_refl _) _).
    + repeat constructor.
    + intros a [<-|[]]. discriminate.
Defined.

(** C10. Start-edit needs the cached collection.  While the collection is
    [undefined], as the wire handler leaves it after a failed fetch, the
    lookup is made on [undefined]: the handler throws there, before its
    not-found branch, so no toast is dispatched and the component is left as
    it was.  While the collection is an array of records the lookup is
    defined and the handler returns normally, whatever id the event
    carries. *)
Theorem start_edit_needs_the_collection (ev : event) (c : component) :
  (accounts c = VUndefined ->
   let r := handleStartEdit ev c in
   returned r = Throws TypeError /\ state r = c /\ effects r = []) /\
  (forall result c0,
     nullish result = false ->
     truthy (prop result "data") = false ->
     truthy (prop result "error") = true ->
     let failed := state (wiredAccounts result c0) in
     accounts failed = VUndefined /\
     returned (handleStartEdit ev failed) = Throws TypeError /\
     count is_toast (effects (handleStartEdit ev failed)) = 0) /\
  (forall rows,
     accounts c = VArr rows ->
     Forall (fun a => is_object a = true) rows ->
     returned (handleStartEdit ev c) = Normal tt).
Proof.
  split; [|split].
  - intros Hacc. rewrite (handleStartEdit_throws ev c TypeError).
    + repeat split.
    + now rewrite Hacc.
  - intros result c0 Hobj Hdata Herr.
    rewrite (wiredAccounts_error _ _ Hobj Hdata Herr). cbn [state].
    split; [reflexivity|].
    rewrite (handleStartEdit_throws ev _ TypeError) by reflexivity.
    split; reflexivity.
  - intros rows Hacc Hobj.
    destruct (find_by_Id_total rows (target_dataset_id ev) Hobj)
      as (found & Hfind & Hfound).
    assert (Hlookup : find (accounts c) (target_dataset_id ev) = Normal found)
      by now rewrite Hacc.
    destruct Hfound as [->|Hrecord].
    + now rewrite (handleStartEdit_not_found ev c VUndefined).
    + now rewrite (handleStartEdit_found ev c found Hlookup (object_truthy _ Hrecord)).
Qed.

Lemma start_edit_needs_the_collection_witness :
  let ev := click "1" in
  (let r := handleStartEdit ev initial in
   returned r = Throws TypeError /\ state r = initial /\ effects r = []) /\
  (let failed := state (wiredAccounts (wire_result VUndefined fetch_error)
                          (set_accounts (VArr [acme; globex]) initial)) in
   accounts failed = VUndefined /\
   returned (handleStartEdit ev failed) = Throws TypeError /\
   count is_toast (effects (handleStartEdit ev failed)) = 0) /\
  returned (handleStartEdit ev (set_accounts (VArr [acme; globex]) initial))
  = Normal tt.
Proof.
  intros ev. split; [|split].
  - apply (proj1 (start_edit_needs_the_collection ev initial)). reflexivity.
  - apply (proj1 (proj2 (start_edit_needs_the_collection ev initial))
             (wire_result VUndefined fetch_error)
             (set_accounts (VArr [acme; globex]) initial));
      reflexivity.
  - apply (proj2 (proj2 (start_edit_needs_the_collection
                           ev (set_accounts (VArr [acme; globex]) initial)))
             [acme; globex]).
    + reflexivity.
    + repeat constructor.
Defined.

(** *** The promise chains *)

Section Rejections.

Variables (error : value) (refreshed : settled) (c : component).
Hypothesis error_is_object : nullish error = false.

(** A rejected delete or update: one error toast, with the message of the
    error's body when it has a truthy one and the handler's own text
    otherwise.  The error is an object, as the platform's errors are. *)
Lemma handleDeleteAccount_rejected :
  handleDeleteAccount_settled (Rejected error) refreshed c =
  {| returned := Normal (Fulfilled VUndefined);
     state := set_isLoading false c;
     effects :=
       [Toast "Error"
          (or_else (get_opt (prop error "body") "message") (VStr "Delete failed"))
          "error"] |}.
Proof.
  run_handler. rewrite (get_not_nullish _ _ error_is_object). reflexivity.
Qed.

Lemma handleSaveEdit_rejected :
  handleSaveEdit_settled (Rejected error) refreshed c =
  {| returned := Normal (Fulfilled VUndefined);
     state := set_isLoading false c;
     effects :=
       [Toast "Error"
          (or_else (get_opt (prop error "body") "message") (VStr "Update failed"))
          "error"] |}.
Proof.
  run_handler. rewrite (get_not_nullish _ _ error_is_object). reflexivity.
Qed.

(** A rejected create whose error has a body: one error toast, with whatever
    the body's [message] is. *)
Lemma handleCreateAccount_rejected :
  nullish (prop error "body") = false ->
  handleCreateAccount_settled (Rejected error) refreshed c =
  {| returned := Normal (Fulfilled VUndefined);
     state := set_isLoading false c;
     effects := [Toast "Error" (prop (prop error "body") "message") "error"] |}.
Proof.
  intros Hbody. run_handler. rewrite (get_not_nullish _ _ error_is_object). cbn.
  rewrite (get_not_nullish _ _ Hbody). reflexivity.
Qed.

(** A rejected create whose error has no body: the catch callback throws,
    and nothing is dispatched. *)
Lemma handleCreateAccount_rejected_bodiless :
  nullish (prop error "body") = true ->
  handleCreateAccount_settled (Rejected error) refreshed c =
  {| returned := Normal (Rejected TypeError);
     state := set_isLoading false c;
     effects := [] |}.
Proof.
  intros Hbody. run_handler. rewrite (get_not_nullish _ _ error_is_object). cbn.
  unfold get. rewrite Hbody. reflexivity.
Qed.

End Rejections.

(** The message of the fallback expression [error.body?.message || text]. *)
Lemma fallback_message (body : value) (text : string) :
  or_else (get_opt body "message") (VStr text) =
  if truthy (get_opt body "message") then get_opt body "message" else VStr text.
Proof. reflexivity. Qed.

(** C2, on the create chain.  A create call rejected with an error that has
    no [body] (here an error carrying only a [message] of its own): the
    catch callback throws on [error.body.message], no toast at all is
    dispatched and the chain ends rejected with that exception, where the
    delete and the update chain on the same error dispatch one error toast
    with their fallback text.  On an error whose body has no [message] the
    create chain dispatches a toast whose message is [undefined], again
    where delete and update use their fallback text. *)
Theorem create_rejection_has_no_fallback (refreshed : settled) (c : component) :
  let bodiless := VObj [("message", VStr "Network error")] in
  let messageless := VObj [("body", VObj [])] in
  (let r := handleCreateAccount_settled (Rejected bodiless) refreshed c in
   returned r = Normal (Rejected TypeError) /\
   effects r = [] /\
   count is_error_toast (effects r) = 0) /\
  effects (handleDeleteAccount_settled (Rejected bodiless) refreshed c)
  = [Toast "Error" (VStr "Delete failed") "error"] /\
  effects (handleSaveEdit_settled (Rejected bodiless) refreshed c)
  = [Toast "Error" (VStr "Update failed") "error"] /\
  effects (handleCreateAccount_settled (Rejected messageless) refreshed c)
  = [Toast "Error" VUndefined "error"] /\
  effects (handleDeleteAccount_settled (Rejected messageless) refreshed c)
  = [Toast "Error" (VStr "Delete failed") "error"] /\
  effects (handleSaveEdit_settled (Rejected messageless) refreshed c)
  = [Toast "Error" (VStr "Update failed") "error"].
Proof.
  cbn zeta. repeat split.
Qed.

(** *** Edit: save *)

(** What the update chain does when the call was fulfilled: the success
    toast, the cancel, one refresh request, and then whatever the catch
    callback does with a refresh that was rejected.  The edit form ends as
    the class initialises it and exactly one refresh request went out. *)
Lemma handleSaveEdit_fulfilled (v : value) (refreshed : settled) (c : component) :
  let r := handleSaveEdit_settled (Fulfilled v) refreshed c in
  edit_form (state r) = edit_form initial /\
  isLoading (state r) = false /\
  count is_refresh (effects r) = 1 /\
  exists rest,
    effects r =
    Toast "Success" (VStr "Account updated successfully") "success"
    :: RefreshCall (wiredAccountsResult c) :: rest /\
    count is_refresh rest = 0.
Proof.
  run_handler. cbn.
  destruct refreshed as [v'|reason]; cbn.
  - repeat split. now exists [].
  - destruct (get reason "body"); cbn; repeat split; eexists; split;
      reflexivity.
Qed.

(** C5. A save of the edit form with the editing id set and a non-empty
    name sends the update call and leaves the edit form as it is.  When the
    call is fulfilled, the chain puts the component back to idle (editing id
    [null], the five edit fields empty) and sends exactly one refresh
    request; when the call is rejected, the chain leaves the editing id and
    the five edit fields as they are at that moment (as they were at the save,
    when nothing came in between) and sends no refresh request. *)
Theorem save_edit_settles (c : component) :
  truthy (editRecordId c) = true ->
  truthy (editName c) = true ->
  let sent := handleSaveEdit c in
  (returned sent = Normal true /\
   effects sent =
     [UpdateCall (editRecordId c) (editName c) (editIndustry c) (editPhone c)
        (editDescription c) (editSite c)] /\
   edit_form (state sent) = edit_form c) /\
  (forall (v : value) (refreshed : settled) (c2 : component),
     let r := handleSaveEdit_settled (Fulfilled v) refreshed c2 in
     editRecordId (state r) = VNull /\
     editName (state r) = VStr "" /\
     editIndustry (state r) = VStr "" /\
     editPhone (state r) = VStr "" /\
     editDescription (state r) = VStr "" /\
     editSite (state r) = VStr "" /\
     count is_refresh (effects r) = 1) /\
  (forall (reason : value) (refreshed : settled) (c2 : component),
     let r := handleSaveEdit_settled (Rejected reason) refreshed c2 in
     edit_form (state r) = edit_form c2 /\
     count is_refresh (effects r) = 0) /\
  (forall (reason : value) (refreshed : settled),
     let r := handleSaveEdit_settled (Rejected reason) refreshed (state sent) in
     edit_form (state r) = edit_form c /\
     editRecordId (state r) = editRecordId c /\
     count is_refresh (effects sent ++ effects r) = 0).
Proof.
  intros Hid Hname sent.
  assert (Hsent : sent =
    {| returned := Normal true; state := set_isLoading true c;
       effects := [UpdateCall (editRecordId c) (editName c) (editIndustry c)
                     (editPhone c) (editDescription c) (editSite c)] |}).
  { subst sent. run_handler. rewrite Hid. cbn. rewrite Hname. reflexivity. }
  assert (Hrejected : forall reason refreshed c2,
            let r := handleSaveEdit_settled (Rejected reason) refreshed c2 in
            edit_form (state r) = edit_form c2 /\
            count is_refresh (effects r) = 0).
  { intros reason refreshed c2. run_handler.
    destruct (get reason "body"); cbn; split; reflexivity. }
  split; [|split; [|split]].
  - rewrite Hsent. repeat split.
  - intros v refreshed c2 r.
    destruct (handleSaveEdit_fulfilled v refreshed c2) as (Hform & _ & Hcount & _).
    fold r in Hform, Hcount. unfold edit_form in Hform. cbn in Hform.
    injection Hform as H1 H2 H3 H4 H5 H6. repeat split; assumption.
  - exact Hrejected.
  - intros reason refreshed r.
    destruct (Hrejected reason refreshed (state sent)) as [Hform Hcount].
    fold r in Hform, Hcount. rewrite Hsent in Hform |- *. cbn in Hform |- *.
    repeat split.
    + exact Hform.
    + unfold edit_form in Hform. now injection Hform.
    + exact Hcount.
Qed.

Lemma save_edit_settles_witness :
  let sent := handleSaveEdit editing_globex in
  (returned sent = Normal true /\
   effects sent =
     [UpdateCall (VStr "2") (VStr "Globex") (VStr "Energy") (VStr "555-0100")
        (VStr "") (VStr "HQ")] /\
   edit_form (state sent) = edit_form editing_globex) /\
  (let r := handleSaveEdit_settled (Fulfilled VUndefined) (Fulfilled VUndefined)
              (state sent) in
   editRecordId (state r) = VNull /\
   editName (state r) = VStr "" /\
   editIndustry (state r) = VStr "" /\
   editPhone (state r) = VStr "" /\
   editDescription (state r) = VStr "" /\
   editSite (state r) = VStr "" /\
   count is_refresh (effects r) = 1) /\
  (let r := handleSaveEdit_settled (Rejected fetch_error) (Fulfilled VUndefined)
              (state sent) in
   edit_form (state r) = edit_form editing_globex /\
   editRecordId (state r) = VStr "2" /\
   count is_refresh (effects sent ++ effects r) = 0).
Proof.
  intros sent.
  pose proof (save_edit_settles editing_globex eq_refl eq_refl)
    as (Hsent & Hfulfilled & _ & Hrejected).
  split; [exact Hsent|]. split.
  - exact (Hfulfilled VUndefined (Fulfilled VUndefined) (state sent)).
  - exact (Hrejected fetch_error (Fulfilled VUndefined)).
Defined.

(** *** The loading flag *)

(** The chains end with the loading flag cleared, however the remote call
    and the refresh settle and whatever the component is when they do. *)
Lemma handleCreateAccount_settled_clears_loading
    (remote refreshed : settled) (c : component) :
  isLoading (state (handleCreateAccount_settled remote refreshed c)) = false.
Proof.
  run_handler. destruct remote as [v|reason]; cbn.
  - destruct refreshed as [v'|reason]; cbn; [reflexivity|].
    destruct (get reason "body") as [body|]; cbn; [|reflexivity].
    destruct (get body "message"); reflexivity.
  - destruct (get reason "body") as [body|]; cbn; [|reflexivity].
    destruct (get body "message"); reflexivity.
Qed.

Lemma handleDeleteAccount_settled_clears_loading
    (remote refreshed : settled) (c : component) :
  isLoading (state (handleDeleteAccount_settled remote refreshed c)) = false.
Proof.
  run_handler. destruct remote as [v|reason]; cbn.
  - destruct refreshed as [v'|reason]; cbn; [reflexivity|].
    destruct (get reason "body"); reflexivity.
  - destruct (get reason "body"); reflexivity.
Qed.

Lemma handleSaveEdit_settled_clears_loading
    (remote refreshed : settled) (c : component) :
  isLoading (state (handleSaveEdit_settled remote refreshed c)) = false.
Proof.
  run_handler. destruct remote as [v|reason]; cbn.
  - destruct refreshed as [v'|reason]; cbn; [reflexivity|].
    destruct (get reason "body"); reflexivity.
  - destruct (get reason "body"); reflexivity.
Qed.

(** C7. A create with a name that passes validation, a confirmed delete and
    a save that passes validation each set the loading flag and then send
    their remote call: the handler's run is the call sent from the component
    with the flag set, and the handler returns with the flag still set.  The
    chain of each, run on the settlement of the call, ends with the flag
    cleared, whether the call was fulfilled or rejected. *)
Theorem loading_flag_brackets_the_call (ev : event) (c : component) :
  (truthy (accountName c) = true ->
   let call := CreateCall (accountName c) (accountIndustry c) (accountPhone c)
                 (accountDescription c) (accountSite c) in
   handleCreateAccount c = (emit call ;; ret true) (set_isLoading true c) /\
   returned (handleCreateAccount c) = Normal true /\
   effects (handleCreateAccount c) = [call] /\
   isLoading (state (handleCreateAccount c)) = true) /\
  (let question := ConfirmPrompt "Are you sure you want to delete this account?" in
   let call := DeleteCall (target_dataset_id ev) in
   effects (handleDeleteAccount ev true c) = [question; call] /\
   returned (handleDeleteAccount ev true c) = Normal true /\
   state (handleDeleteAccount ev true c) = state ((emit call ;; ret true) (set_isLoading true c)) /\
   isLoading (state (handleDeleteAccount ev true c)) = true) /\
  (truthy (editRecordId c) = true ->
   truthy (editName c) = true ->
   let call := UpdateCall (editRecordId c) (editName c) (editIndustry c)
                 (editPhone c) (editDescription c) (editSite c) in
   handleSaveEdit c = (emit call ;; ret true) (set_isLoading true c) /\
   returned (handleSaveEdit c) = Normal true /\
   effects (handleSaveEdit c) = [call] /\
   isLoading (state (handleSaveEdit c)) = true) /\
  (forall (remote refreshed : settled) (c2 : component),
     isLoading (state (handleCreateAccount_settled remote refreshed c2)) = false /\
     isLoading (state (handleDeleteAccount_settled remote refreshed c2)) = false /\
     isLoading (state (handleSaveEdit_settled remote refreshed c2)) = false).
Proof.
  split; [|split; [|split]].
  - intros Hname call.
    assert (H : handleCreateAccount c = (emit call ;; ret true) (set_isLoading true c)).
    { subst call. run_handler. rewrite Hname. reflexivity. }
    rewrite H. repeat split.
  - cbn zeta. repeat split.
  - intros Hid Hname call.
    assert (H : handleSaveEdit c = (emit call ;; ret true) (set_isLoading true c)).
    { subst call. run_handler. rewrite Hid. cbn. rewrite Hname. reflexivity. }
    rewrite H. repeat split.
  - intros remote refreshed c2. repeat split.
    + apply handleCreateAccount_settled_clears_loading.
    + apply handleDeleteAccount_settled_clears_loading.
    + apply handleSaveEdit_settled_clears_loading.
Qed.

Lemma loading_flag_brackets_the_call_witness :
  (returned (handleCreateAccount named_form) = Normal true /\
   effects (handleCreateAccount named_form)
   = [CreateCall (VStr "Initech") (VStr "") (VStr "") (VStr "") (VStr "")] /\
   isLoading (state (handleCreateAccount named_form)) = true) /\
  (returned (handleSaveEdit editing_globex) = Normal true /\
   effects (handleSaveEdit editing_globex)
   = [UpdateCall (VStr "2") (VStr "Globex") (VStr "Energy") (VStr "555-0100")
        (VStr "") (VStr "HQ")] /\
   isLoading (state (handleSaveEdit editing_globex)) = true) /\
  isLoading
    (state (handleCreateAccount_settled (Fulfilled acme) (Fulfilled VUndefined)
              (state (handleCreateAccount named_form)))) = false /\
  isLoading
    (state (handleSaveEdit_settled (Rejected fetch_error) (Fulfilled VUndefined)
              (state (handleSaveEdit editing_globex)))) = false.
Proof.
  pose proof (loading_flag_brackets_the_call (click "2") named_form)
    as (Hcreate & _ & _ & Hchains).
  pose proof (loading_flag_brackets_the_call (click "2") editing_globex)
    as (_ & _ & Hsave & _).
  split; [|split; [|split]].
  - apply (Hcreate eq_refl).
  - apply (Hsave eq_refl eq_refl).
  - exact (proj1 (Hchains (Fulfilled acme) (Fulfilled VUndefined)
                    (state (handleCreateAccount named_form)))).
  - exact (proj2 (proj2 (Hchains (Rejected fetch_error) (Fulfilled VUndefined)
                           (state (handleSaveEdit editing_globex))))).
Defined.

(** *** Runs *)

(** A create that goes through: the call, the success toast, the form
    cleared, the refresh, the flag cleared. *)
Example create_initech :
  operation handleCreateAccount
    (handleCreateAccount_settled (Fulfilled acme) (Fulfilled VUndefined))
    named_form =
  {| returned := Normal tt;
     state := initial;
     effects :=
       [CreateCall (VStr "Initech") (VStr "") (VStr "") (VStr "") (VStr "");
        Toast "Success" (VStr "Account created successfully") "success";
        RefreshCall VUndefined] |}.
Proof. reflexivity. Qed.

(** A confirmed delete that the service rejects with its own message. *)
Example delete_globex_rejected :
  operation (handleDeleteAccount (click "2") true)
    (handleDeleteAccount_settled (Rejected fetch_error) (Fulfilled VUndefined))
    listing =
  {| returned := Normal tt;
     state := listing;
     effects :=
       [ConfirmPrompt "Are you sure you want to delete this account?";
        DeleteCall (VStr "2");
        Toast "Error" (VStr "Insufficient access") "error"] |}.
Proof. reflexivity. Qed.

(** A save that goes through while the refresh that follows is rejected:
    the component is idle again, and the catch callback reports the refresh
    error. *)
Example save_globex_refresh_rejected :
  let r := operation handleSaveEdit
             (handleSaveEdit_settled (Fulfilled VUndefined) (Rejected fetch_error))
             editing_globex in
  edit_form (state r) = edit_form initial /\
  isLoading (state r) = false /\
  effects r =
    [UpdateCall (VStr "2") (VStr "Globex") (VStr "Energy") (VStr "555-0100")
       (VStr "") (VStr "HQ");
     Toast "Success" (VStr "Account updated successfully") "success";
     RefreshCall (wire_result (VArr [acme; globex]) VUndefined);
     Toast "Error" (VStr "Insufficient access") "error"].
Proof. repeat split. Qed.

(** ** Further properties *)

(** *** Save: validation *)

(** A save while no record is being edited (the editing id is [null],
    [undefined] or the empty string) is refused with its own message,
    whatever the name field holds: one error toast, no remote call, no chain
    left waiting, the component as it was. *)
Theorem save_without_editing_id_is_refused (c : component) :
  truthy (editRecordId c) = false ->
  handleSaveEdit c =
  {| returned := Normal false; state := c;
     effects := [Toast "Error" (VStr "No record selected for update") "error"] |} /\
  forall remote refreshed : settled,
    operation handleSaveEdit (handleSaveEdit_settled remote refreshed) c =
    {| returned := Normal tt; state := c;
       effects := [Toast "Error" (VStr "No record selected for update") "error"] |}.
Proof.
  intros Hid. run_handler. rewrite Hid. cbn. split; reflexivity.
Qed.

Lemma save_without_editing_id_is_refused_witness :
  handleSaveEdit listing =
  {| returned := Normal false; state := listing;
     effects := [Toast "Error" (VStr "No record selected for update") "error"] |} /\
  forall remote refreshed : settled,
    operation handleSaveEdit (handleSaveEdit_settled remote refreshed) listing =
    {| returned := Normal tt; state := listing;
       effects := [Toast "Error" (VStr "No record selected for update") "error"] |}.
Proof.
  apply (save_without_editing_id_is_refused listing). reflexivity.
Defined.

(** A save while a record is being edited and the name field is empty is
    refused: one error toast saying the name is required, no remote call,
    the component (the edit form with it) as it was. *)
Theorem save_with_empty_name_is_refused (c : component) :
  truthy (editRecordId c) = true ->
  truthy (editName c) = false ->
  handleSaveEdit c =
  {| returned := Normal false; state := c;
     effects := [Toast "Error" (VStr "Name is required") "error"] |} /\
  forall remote refreshed : settled,
    operation handleSaveEdit (handleSaveEdit_settled remote refreshed) c =
    {| returned := Normal tt; state := c;
       effects := [Toast "Error" (VStr "Name is required") "error"] |}.
Proof.
  intros Hid Hname. run_handler. rewrite Hid. cbn. rewrite Hname. cbn.
  split; reflexivity.
Qed.

Lemma save_with_empty_name_is_refused_witness :
  handleSaveEdit editing_acme_blank =
  {| returned := Normal false; state := editing_acme_blank;
     effects := [Toast "Error" (VStr "Name is required") "error"] |} /\
  forall remote refreshed : settled,
    operation handleSaveEdit (handleSaveEdit_settled remote refreshed)
      editing_acme_blank =
    {| returned := Normal tt; state := editing_acme_blank;
       effects := [Toast "Error" (VStr "Name is required") "error"] |}.
Proof.
  apply (save_with_empty_name_is_refused editing_acme_blank); reflexivity.
Defined.



(** *** Create and delete: the chains *)

(** The create form with its five fields emptied. *)
Lemma handleCreateAccount_fulfilled_state (v : value) (refreshed : settled) (c : component) :
  state (handleCreateAccount_settled (Fulfilled v) refreshed c) =
  set_isLoading false
    (set_accountSite (VStr "")
       (set_accountDescription (VStr "")
          (set_accountPhone (VStr "")
             (set_accountIndustry (VStr "")
                (set_accountName (VStr "") c))))).
Proof.
  run_handler. destruct refreshed as [v'|reason]; cbn; [reflexivity|].
  destruct (get reason "body") as [body|]; cbn; [|reflexivity].
  destruct (get body "message"); reflexivity.
Qed.

(** A create that the service fulfilled: the five create-form fields are
    emptied whatever they held and nothing else of the component changes but
    the loading flag; one success toast and exactly one refresh request go
    out, the request carrying the wire result stored last; when the refresh
    is fulfilled too, that is all that goes out. *)
Theorem fulfilled_create_clears_the_form
    (v v' : value) (refreshed : settled) (c : component) :
  let r := handleCreateAccount_settled (Fulfilled v) refreshed c in
  create_form (state r) = create_form initial /\
  edit_form (state r) = edit_form c /\
  accounts (state r) = accounts c /\
  error (state r) = error c /\
  isLoading (state r) = false /\
  count is_success_toast (effects r) = 1 /\
  count is_refresh (effects r) = 1 /\
  In (RefreshCall (wiredAccountsResult c)) (effects r) /\
  effects (handleCreateAccount_settled (Fulfilled v) (Fulfilled v') c) =
  [Toast "Success" (VStr "Account created successfully") "success";
   RefreshCall (wiredAccountsResult c)].
Proof.
  cbn zeta. rewrite handleCreateAccount_fulfilled_state.
  repeat split; run_handler; cbn;
    (destruct refreshed as [w|reason]; cbn; [auto|]);
    (destruct (get reason "body") as [body|]; cbn; [|auto]);
    (destruct (get body "message"); cbn; auto).
Qed.

(** A create that the service rejected leaves the component as it was but
    for the loading flag, so the five typed values are still in the form;
    no refresh request and no success toast go out, and at most one toast. *)
Theorem rejected_create_keeps_the_form
    (reason : value) (refreshed : settled) (c : component) :
  let r := handleCreateAccount_settled (Rejected reason) refreshed c in
  state r = set_isLoading false c /\
  create_form (state r) = create_form c /\
  count is_refresh (effects r) = 0 /\
  count is_success_toast (effects r) = 0 /\
  count is_toast (effects r) <= 1.
Proof.
  run_handler.
  destruct (get reason "body") as [body|]; cbn; [|repeat split; lia].
  destruct (get body "message"); cbn; repeat split; lia.
Qed.

(** The delete chain changes nothing of the component but the loading flag,
    however the call and the refresh settle: the deleted record stays in the
    cached collection until the wire delivers a new one, and an edit form
    open on it stays open.  A fulfilled delete sends one success toast and
    exactly one refresh request, a rejected one no refresh request. *)
Theorem delete_chain_only_clears_loading
    (v reason : value) (remote refreshed : settled) (c : component) :
  state (handleDeleteAccount_settled remote refreshed c) = set_isLoading false c /\
  accounts (state (handleDeleteAccount_settled remote refreshed c)) = accounts c /\
  edit_form (state (handleDeleteAccount_settled remote refreshed c)) = edit_form c /\
  (let r := handleDeleteAccount_settled (Fulfilled v) refreshed c in
   count is_success_toast (effects r) = 1 /\
   count is_refresh (effects r) = 1 /\
   In (RefreshCall (wiredAccountsResult c)) (effects r)) /\
  (let r := handleDeleteAccount_settled (Rejected reason) refreshed c in
   count is_success_toast (effects r) = 0 /\
   count is_refresh (effects r) = 0).
Proof.
  assert (Hstate : forall remote',
            state (handleDeleteAccount_settled remote' refreshed c) = set_isLoading false c).
  { intros remote'. run_handler. destruct remote' as [w|why]; cbn.
    - destruct refreshed as [w'|why]; cbn; [reflexivity|].
      destruct (get why "body"); reflexivity.
    - destruct (get why "body"); reflexivity. }
  rewrite Hstate. repeat split; run_handler; cbn.
  - destruct refreshed as [w'|why]; cbn; [reflexivity|].
    destruct (get why "body"); reflexivity.
  - destruct refreshed as [w'|why]; cbn; [reflexivity|].
    destruct (get why "body"); reflexivity.
  - destruct refreshed as [w'|why]; cbn; [auto|].
    destruct (get why "body"); cbn; auto.
  - destruct (get reason "body"); reflexivity.
  - destruct (get reason "body"); reflexivity.
Qed.

(** A delete or an update rejected with an error whose body carries a string
    message: the one error toast shows that message, unless it is the empty
    string, for which it shows the handler's own text. *)
Theorem service_message_or_fallback
    (error : value) (body : list (string * value)) (text : string)
    (refreshed : settled) (c : component) :
  nullish error = false ->
  prop error "body" = VObj body ->
  lookup body "message" = Some (VStr text) ->
  effects (handleDeleteAccount_settled (Rejected error) refreshed c) =
  [Toast "Error" (VStr (if text =? "" then "Delete failed" else text)) "error"] /\
  effects (handleSaveEdit_settled (Rejected error) refreshed c) =
  [Toast "Error" (VStr (if text =? "" then "Update failed" else text)) "error"].
Proof.
  intros Hobj Hbody Hmessage.
  rewrite (handleDeleteAccount_rejected error refreshed c Hobj).
  rewrite (handleSaveEdit_rejected error refreshed c Hobj).
  rewrite Hbody. cbn. rewrite Hmessage. unfold or_else. cbn.
  destruct (text =? ""); split; reflexivity.
Qed.

Lemma service_message_or_fallback_witness :
  (effects (handleDeleteAccount_settled (Rejected fetch_error) (Fulfilled VUndefined) listing) =
   [Toast "Error" (VStr "Insufficient access") "error"] /\
   effects (handleSaveEdit_settled (Rejected fetch_error) (Fulfilled VUndefined) listing) =
   [Toast "Error" (VStr "Insufficient access") "error"]) /\
  (effects (handleDeleteAccount_settled
              (Rejected (VObj [("body", VObj [("message", VStr "")])]))
              (Fulfilled VUndefined) listing) =
   [Toast "Error" (VStr "Delete failed") "error"] /\
   effects (handleSaveEdit_settled
              (Rejected (VObj [("body", VObj [("message", VStr "")])]))
              (Fulfilled VUndefined) listing) =
   [Toast "Error" (VStr "Update failed") "error"]).
Proof.
  split.
  - exact (service_message_or_fallback fetch_error
             [("message", VStr "Insufficient access")] "Insufficient access"
             (Fulfilled VUndefined) listing eq_refl eq_refl eq_refl).
  - exact (service_message_or_fallback
             (VObj [("body", VObj [("message", VStr "")])])
             [("message", VStr "")] ""
             (Fulfilled VUndefined) listing eq_refl eq_refl eq_refl).
Defined.

(** *** The form fields *)

(** [handleEditFieldChange] on an event that carries a name: for each of the
    five names it knows it assigns the event's value to the field of that
    name and to no other; for any other name it changes nothing.  It never
    changes the editing id and sends nothing out. *)
Theorem edit_field_change_sets_the_named_field
    (ev : event) (c : component) (name : string) :
  target_name ev = VStr name ->
  let r := handleEditFieldChange ev c in
  (name = "editName" -> state r = set_editName (target_value ev) c) /\
  (name = "editIndustry" -> state r = set_editIndustry (target_value ev) c) /\
  (name = "editPhone" -> state r = set_editPhone (target_value ev) c) /\
  (name = "editDescription" -> state r = set_editDescription (target_value ev) c) /\
  (name = "editSite" -> state r = set_editSite (target_value ev) c) /\
  (~ In name edit_field_names -> state r = c) /\
  editRecordId (state r) = editRecordId c /\
  returned r = Normal tt /\
  effects r = [].
Proof.
  intros Hname. run_assignments. rewrite Hname. cbn [strict_eq].
  repeat split; try (intros ->; reflexivity).
  - intros Hnot. unfold edit_field_names in Hnot. cbn [In] in Hnot.
    repeat match goal with
    | |- context [String.eqb name ?s] =>
        destruct (String.eqb_spec name s) as [->|_]; [exfalso; tauto|]
    end.
    reflexivity.
  - repeat match goal with
    | |- context [String.eqb name ?s] => destruct (String.eqb name s)
    end; reflexivity.
  - repeat match goal with
    | |- context [String.eqb name ?s] => destruct (String.eqb name s)
    end; reflexivity.
  - repeat match goal with
    | |- context [String.eqb name ?s] => destruct (String.eqb name s)
    end; reflexivity.
Qed.

Lemma edit_field_change_sets_the_named_field_witness :
  state (handleEditFieldChange (typed "editPhone" "555-0199") editing_acme)
  = set_editPhone (VStr "555-0199") editing_acme /\
  state (handleEditFieldChange (typed "editRecordId" "2") editing_acme)
  = editing_acme.
Proof.
  pose proof (edit_field_change_sets_the_named_field
                (typed "editPhone" "555-0199") editing_acme "editPhone" eq_refl)
    as (_ & _ & Hphone & _).
  pose proof (edit_field_change_sets_the_named_field
                (typed "editRecordId" "2") editing_acme "editRecordId" eq_refl)
    as (_ & _ & _ & _ & _ & Hother & _).
  split.
  - exact (Hphone eq_refl).
  - apply Hother. unfold edit_field_names. cbn [In].
    intros [H|[H|[H|[H|[H|[]]]]]]; discriminate H.
Defined.

(** The component after the five create-form inputs have been typed in. *)
Lemma after_typing (name industry phone description site : event) (c : component) :
  after_all [NameChange name; IndustryChange industry; PhoneChange phone;
             DescriptionChange description; SiteChange site] c =
  set_accountSite (target_value site)
    (set_accountDescription (target_value description)
       (set_accountPhone (target_value phone)
          (set_accountIndustry (target_value industry)
             (set_accountName (target_value name) c)))).
Proof. reflexivity. Qed.

(** What is typed into the five create-form inputs is what the create call
    carries: after the five change handlers, a submit with a non-empty name
    sends one create call with the five typed values, in the order name,
    industry, phone, description, site, and sets the loading flag. *)
Theorem typed_values_reach_the_create_call
    (name industry phone description site : event) (c : component) :
  truthy (target_value name) = true ->
  let filled :=
    after_all [NameChange name; IndustryChange industry; PhoneChange phone;
               DescriptionChange description; SiteChange site] c in
  returned (handleCreateAccount filled) = Normal true /\
  effects (handleCreateAccount filled) =
  [CreateCall (target_value name) (target_value industry) (target_value phone)
     (target_value description) (target_value site)] /\
  isLoading (state (handleCreateAccount filled)) = true.
Proof.
  intros Hname filled. subst filled. rewrite after_typing.
  run_handler. cbn. rewrite Hname. cbn. repeat split.
Qed.

Lemma typed_values_reach_the_create_call_witness :
  let filled :=
    after_all [NameChange (typed "name" "Initech");
               IndustryChange (typed "industry" "Software");
               PhoneChange (typed "phone" "");
               DescriptionChange (typed "description" "TPS reports");
               SiteChange (typed "site" "Austin")] initial in
  returned (handleCreateAccount filled) = Normal true /\
  effects (handleCreateAccount filled) =
  [CreateCall (VStr "Initech") (VStr "Software") (VStr "") (VStr "TPS reports")
     (VStr "Austin")] /\
  isLoading (state (handleCreateAccount filled)) = true.
Proof.
  exact (typed_values_reach_the_create_call
           (typed "name" "Initech") (typed "industry" "Software")
           (typed "phone" "") (typed "description" "TPS reports")
           (typed "site" "Austin") initial eq_refl).
Defined.

(** *** The row flag *)

(** [renderedCallback] writes the row flag and nothing else.  With no card
    found the flag is false; with a card found the flag is true exactly when
    the editing id is the string of that card's id.  After a cancel the flag
    comes out false for every card. *)
Theorem rendered_flag_follows_the_editing_id
    (c : component) (currentId : string) (current : option string) :
  state (renderedCallback None c) = set_isEditingThisRow false c /\
  (exists flag,
     state (renderedCallback (Some currentId) c) = set_isEditingThisRow flag c /\
     (flag = true <-> editRecordId c = VStr currentId)) /\
  effects (renderedCallback current c) = [] /\
  isEditingThisRow (state (renderedCallback current (state (handleCancelEdit c))))
  = false.
Proof.
  split; [reflexivity|]. split; [|split].
  - exists (strict_eq (editRecordId c) (VStr currentId)).
    split; [reflexivity|apply strict_eq_str].
  - destruct current; reflexivity.
  - destruct current; reflexivity.
Qed.

Lemma rendered_flag_follows_the_editing_id_witness :
  isEditingThisRow (state (renderedCallback (Some "2") editing_globex)) = true /\
  isEditingThisRow (state (renderedCallback (Some "1") editing_globex)) = false.
Proof.
  destruct (rendered_flag_follows_the_editing_id editing_globex "2" None)
    as (_ & (flag2 & Hstate2 & Hflag2) & _).
  destruct (rendered_flag_follows_the_editing_id editing_globex "1" None)
    as (_ & (flag1 & Hstate1 & Hflag1) & _).
  split.
  - rewrite Hstate2. cbn [isEditingThisRow set_isEditingThisRow].
    apply Hflag2. reflexivity.
  - rewrite Hstate1. cbn [isEditingThisRow set_isEditingThisRow].
    destruct flag1; [|reflexivity].
    assert (H : editRecordId editing_globex = VStr "1") by now apply Hflag1.
    discriminate H.
Defined.

(** *** Edit: start, then save *)

(** Start-edit on a record that is in the cached collection and has a
    non-empty name, followed by save: the update call carries the id and the
    record's own five values, the empty string for a field the record does
    not have.  The id is a non-empty string. *)
Theorem start_edit_then_save_sends_the_record
    (ev : event) (c : component) (X name : string)
    (before after : list value) (record : value) :
  target_dataset_id ev = VStr X ->
  X <> "" ->
  accounts c = VArr (before ++ record :: after) ->
  Forall (fun a => is_object a = true) (before ++ record :: after) ->
  (forall a, In a before -> prop a "Id" <> VStr X) ->
  prop record "Id" = VStr X ->
  prop record "Name" = VStr name ->
  name <> "" ->
  (forall k, In k record_fields -> is_text_or_missing (prop record k) = true) ->
  let editing := state (handleStartEdit ev c) in
  returned (handleSaveEdit editing) = Normal true /\
  effects (handleSaveEdit editing) =
  [UpdateCall (VStr X) (VStr name)
     (text_or_empty (prop record "Industry"))
     (text_or_empty (prop record "Phone"))
     (text_or_empty (prop record "Description"))
     (text_or_empty (prop record "Site"))].
Proof.
  intros Hid HX Hacc Hobj Hnone Hrec Hname Hnonempty Hfields editing.
  assert (Hrecord : is_object record = true).
  { rewrite Forall_forall in Hobj. apply Hobj, in_elt. }
  assert (Hfound : find (accounts c) (target_dataset_id ev) = Normal record).
  { rewrite Hacc, Hid. simpl. now apply find_by_Id_first. }
  subst editing.
  rewrite (handleStartEdit_found ev c record Hfound (object_truthy _ Hrecord)).
  cbn [state]. rewrite Hid.
  rewrite !or_else_text by (apply Hfields; unfold record_fields; simpl; tauto).
  rewrite Hname. cbn [text_or_empty].
  run_handler. cbn.
  destruct (String.eqb_spec X "") as [->|_]; [contradiction|]. cbn.
  destruct (String.eqb_spec name "") as [->|_]; [contradiction|].
  cbn. split; reflexivity.
Qed.

Lemma start_edit_then_save_sends_the_record_witness :
  let editing := state (handleStartEdit (click "2") listing) in
  returned (handleSaveEdit editing) = Normal true /\
  effects (handleSaveEdit editing) =
  [UpdateCall (VStr "2") (VStr "Globex") (VStr "Energy") (VStr "555-0100")
     (VStr "") (VStr "HQ")].
Proof.
  refine (start_edit_then_save_sends_the_record (click "2") listing "2" "Globex"
            [acme] [] globex eq_refl _ eq_refl _ _ eq_refl eq_refl _ _).
  - discriminate.
  - repeat constructor.
  - intros a [<-|[]]. discriminate.
  - discriminate.
  - intros k Hk. simpl in Hk.
    repeat (destruct Hk as [<-|Hk]; [reflexivity|]). contradiction.
Defined.

(** The lookup of [handleStartEdit] reads the cached collection only. *)
Lemma handleStartEdit_edit_form (ev : event) (c1 c2 : component) :
  accounts c1 = accounts c2 ->
  returned (handleStartEdit ev c1) = Normal tt ->
  effects (handleStartEdit ev c1) = [] ->
  edit_form (state (handleStartEdit ev c1)) = edit_form (state (handleStartEdit ev c2)).
Proof.
  intros Hacc.
  destruct (find (accounts c1) (target_dataset_id ev)) as [record|exn] eqn:Hfind.
  - destruct (truthy record) eqn:Htruthy.
    + intros _ _.
      rewrite (handleStartEdit_found ev c1 record Hfind Htruthy).
      rewrite Hacc in Hfind.
      rewrite (handleStartEdit_found ev c2 record Hfind Htruthy).
      reflexivity.
    + rewrite (handleStartEdit_not_found ev c1 record Hfind Htruthy).
      cbn. discriminate.
  - rewrite (handleStartEdit_throws ev c1 exn Hfind). cbn. discriminate.
Qed.

Lemma edit_field_changes_keep_accounts (changes : list event) (c : component) :
  accounts (after_all (map EditFieldChange changes) c) = accounts c.
Proof.
  revert c. induction changes as [|ev changes IH]; intros c; [reflexivity|].
  cbn [map after_all]. rewrite IH. cbn [after]. run_assignments.
  repeat match goal with
  | |- context [strict_eq ?a ?b] => destruct (strict_eq a b)
  end; reflexivity.
Qed.

(** Start-edit on a row that is found replaces the whole edit form: what
    the form held before, edits typed into it and not saved included, has no
    part in the result, which is the form a start-edit on that row gives
    directly.  Only one record is in edit mode at a time. *)
Theorem start_edit_discards_unsaved_edits
    (first second : event) (changes : list event) (c : component) :
  returned (handleStartEdit second c) = Normal tt ->
  effects (handleStartEdit second c) = [] ->
  let edited :=
    after_all (map EditFieldChange changes) (state (handleStartEdit first c)) in
  edit_form (state (handleStartEdit second edited))
  = edit_form (state (handleStartEdit second c)).
Proof.
  intros Hreturned Hsilent edited. symmetry.
  apply handleStartEdit_edit_form; [|assumption|assumption].
  subst edited. rewrite edit_field_changes_keep_accounts.
  destruct (find (accounts c) (target_dataset_id first)) as [record|exn] eqn:Hfind.
  - destruct (truthy record) eqn:Htruthy.
    + now rewrite (handleStartEdit_found first c record Hfind Htruthy).
    + now rewrite (handleStartEdit_not_found first c record Hfind Htruthy).
  - now rewrite (handleStartEdit_throws first c exn Hfind).
Qed.

Lemma start_edit_discards_unsaved_edits_witness :
  let edited :=
    after_all (map EditFieldChange [typed "editName" "Acme Ltd";
                                    typed "editSite" "Annex"])
      (state (handleStartEdit (click "1") listing)) in
  edit_form (state (handleStartEdit (click "2") edited))
  = edit_form (state (handleStartEdit (click "2") listing)).
Proof.
  exact (start_edit_discards_unsaved_edits (click "1") (click "2")
           [typed "editName" "Acme Ltd"; typed "editSite" "Annex"] listing
           eq_refl eq_refl).
Defined.

(** *** Who writes what *)

(** The wire handler writes the cached collection, the error slot and the
    stored wire result, and nothing else: the create form, the edit form, the
    loading flag and the row flag are as they were, whatever it is handed.
    A new collection that no longer has the record being edited leaves the
    edit form open on that record's id. *)
Theorem wire_handler_leaves_the_forms (result : value) (c : component) :
  let r := wiredAccounts result c in
  create_form (state r) = create_form c /\
  edit_form (state r) = edit_form c /\
  isLoading (state r) = isLoading c /\
  isEditingThisRow (state r) = isEditingThisRow c /\
  wiredAccountsResult (state r) = result.
Proof.
  run_handler.
  destruct (get result "data") as [data|]; cbn; [|repeat split].
  destruct (truthy data); cbn; [repeat split|].
  destruct (get result "error") as [err|]; cbn; [|repeat split].
  destruct (truthy err); cbn; repeat split.
Qed.

Lemma after_keeps_cache (a : action) (c : component) :
  writes_cache a = false ->
  accounts (after a c) = accounts c /\
  error (after a c) = error c /\
  wiredAccountsResult (after a c) = wiredAccountsResult c.
Proof.
  destruct a; cbn [writes_cache after]; intros Hw; try discriminate Hw;
    run_handler; run_assignments; split_run; repeat split.
Qed.

(** The cached collection, the error slot and the stored wire result are
    written by the wire handler only: every other handler and every chain,
    however it ends, leaves the three as they were.  A create, an update or
    a delete that went through shows in the list only once the wire
    delivers the refreshed collection. *)
Theorem only_the_wire_writes_the_cache (a : action) (c : component) :
  writes_cache a = false ->
  accounts (after a c) = accounts c /\
  error (after a c) = error c /\
  wiredAccountsResult (after a c) = wiredAccountsResult c.
Proof. apply after_keeps_cache. Qed.

Lemma only_the_wire_writes_the_cache_witness :
  accounts (after (DeleteSettled (Fulfilled VUndefined) (Fulfilled VUndefined)) listing)
  = accounts listing /\
  error (after (DeleteSettled (Fulfilled VUndefined) (Fulfilled VUndefined)) listing)
  = error listing /\
  wiredAccountsResult
    (after (DeleteSettled (Fulfilled VUndefined) (Fulfilled VUndefined)) listing)
  = wiredAccountsResult listing.
Proof.
  exact (only_the_wire_writes_the_cache
           (DeleteSettled (Fulfilled VUndefined) (Fulfilled VUndefined)) listing
           eq_refl).
Defined.

(** The create form is written by its five change handlers and by a create
    chain whose call was fulfilled, and by nothing else; the edit form by
    start-edit, the edit-field change handler, cancel and an update chain
    whose call was fulfilled, and by nothing else.  In particular a rejected
    create or update leaves what was typed in place, and a failed validation
    changes neither form. *)
Theorem forms_have_their_own_writers (a : action) (c : component) :
  (writes_create_form a = false -> create_form (after a c) = create_form c) /\
  (writes_edit_form a = false -> edit_form (after a c) = edit_form c).
Proof.
  split.
  - destruct a as [| | | | | | |[]| | | | | | | |];
      cbn [writes_create_form after]; intros Hw; try discriminate Hw;
      run_handler; run_assignments; split_run; reflexivity.
  - destruct a as [| | | | | | | | | | | | | | |[]];
      cbn [writes_edit_form after]; intros Hw; try discriminate Hw;
      run_handler; run_assignments; split_run; reflexivity.
Qed.

Lemma forms_have_their_own_writers_witness :
  create_form (after (CreateSettled (Rejected fetch_error) (Fulfilled VUndefined))
                 named_form)
  = create_form named_form /\
  edit_form (after (SaveSettled (Rejected fetch_error) (Fulfilled VUndefined))
               editing_globex)
  = edit_form editing_globex.
Proof.
  split.
  - exact (proj1 (forms_have_their_own_writers
                    (CreateSettled (Rejected fetch_error) (Fulfilled VUndefined))
                    named_form) eq_refl).
  - exact (proj2 (forms_have_their_own_writers
                    (SaveSettled (Rejected fetch_error) (Fulfilled VUndefined))
                    editing_globex) eq_refl).
Defined.

(** The loading flag is written by the three submitting handlers and their
    chains only: typing, start-edit, cancel, a render pass and a wire
    delivery leave it as it is, so a flag left set is cleared by nothing but
    the settlement of a call. *)
Theorem loading_flag_has_its_own_writers (a : action) (c : component) :
  writes_loading a = false -> isLoading (after a c) = isLoading c.
Proof.
  destruct a; cbn [writes_loading after]; intros Hw; try discriminate Hw;
    run_handler; run_assignments; split_run; reflexivity.
Qed.

Lemma loading_flag_has_its_own_writers_witness :
  isLoading (after CancelEdit (state (handleSaveEdit editing_globex))) = true.
Proof.
  exact (loading_flag_has_its_own_writers CancelEdit
           (state (handleSaveEdit editing_globex)) eq_refl).
Defined.

(** *** Invariants of the component in use *)

Lemma wiredAccounts_not_both (result : value) (c : component) :
  populated (accounts c) && populated (error c) = false ->
  populated (accounts (state (wiredAccounts result c)))
  && populated (error (state (wiredAccounts result c))) = false.
Proof.
  intros Hc. run_handler.
  destruct (get result "data") as [data|]; cbn; [|exact Hc].
  destruct (truthy data); cbn; [apply andb_false_r|].
  destruct (get result "error") as [err|]; cbn; [|exact Hc].
  destruct (truthy err); cbn; [reflexivity|exact Hc].
Qed.

Lemma after_not_both (a : action) (c : component) :
  populated (accounts c) && populated (error c) = false ->
  populated (accounts (after a c)) && populated (error (after a c)) = false.
Proof.
  intros Hc. destruct (writes_cache a) eqn:Hw.
  - destruct a; try discriminate Hw. now apply wiredAccounts_not_both.
  - destruct (after_keeps_cache a c Hw) as (-> & -> & _). exact Hc.
Qed.

(** From the component as the class initialises it, through any sequence of
    wire deliveries, user actions, render passes and settlements, in any
    order and with any arguments, the cached collection and the error slot
    are never both populated. *)
Theorem cache_and_error_never_both_populated (actions : list action) :
  let c := after_all actions initial in
  populated (accounts c) && populated (error c) = false.
Proof.
  cbn zeta.
  assert (H : forall c,
            populated (accounts c) && populated (error c) = false ->
            populated (accounts (after_all actions c))
            && populated (error (after_all actions c)) = false).
  { induction actions as [|a actions IH]; intros c Hc; [exact Hc|].
    cbn [after_all]. apply IH, after_not_both, Hc. }
  apply H. reflexivity.
Qed.

(** *** Toasts *)

(** Every toast the component dispatches is titled Success with variant
    success or titled Error with variant error; and a success toast is
    dispatched only by a chain whose remote call was fulfilled: no
    validation failure, no rejected call and no wire delivery shows one. *)
Theorem toasts_are_success_or_error (a : action) (c : component) :
  forallb toast_shape_ok (sent a c) = true /\
  (is_fulfilled_settlement a = false ->
   count is_success_toast (sent a c) = 0).
Proof.
  split.
  - destruct a; cbn [sent];
      run_handler; run_assignments; split_run; reflexivity.
  - destruct a as [| | | | | | |[]| |[]| | | | | |[]];
      cbn [is_fulfilled_settlement sent]; intros Hs; try discriminate Hs;
      run_handler; run_assignments; split_run; reflexivity.
Qed.

Lemma toasts_are_success_or_error_witness :
  forallb toast_shape_ok
    (sent (SaveSettled (Fulfilled VUndefined) (Rejected fetch_error)) editing_globex)
  = true /\
  count is_success_toast
    (sent (SaveSettled (Rejected fetch_error) (Fulfilled VUndefined)) editing_globex)
  = 0.
Proof.
  split.
  - exact (proj1 (toasts_are_success_or_error
                    (SaveSettled (Fulfilled VUndefined) (Rejected fetch_error))
                    editing_globex)).
  - exact (proj2 (toasts_are_success_or_error
                    (SaveSettled (Rejected fetch_error) (Fulfilled VUndefined))
                    editing_globex) eq_refl).
Defined.

(** *** Refresh *)

Lemma after_all_keeps_wired (actions : list action) (c : component) :
  forallb (fun a => negb (writes_cache a)) actions = true ->
  wiredAccountsResult (after_all actions c) = wiredAccountsResult c.
Proof.
  revert c. induction actions as [|a actions IH]; intros c Hall; [reflexivity|].
  cbn [forallb] in Hall. apply andb_prop in Hall as [Ha Hall].
  apply negb_true_iff in Ha.
  cbn [after_all]. rewrite (IH _ Hall).
  now destruct (after_keeps_cache a c Ha) as (_ & _ & ->).
Qed.

Lemma wiredAccounts_stores_result (result : value) (c : component) :
  wiredAccountsResult (state (wiredAccounts result c)) = result.
Proof. run_handler. split_run; reflexivity. Qed.

Lemma fulfilled_chains_refresh (v : value) (refreshed : settled) (c : component) :
  let wanted := RefreshCall (wiredAccountsResult c) in
  (In wanted (effects (handleCreateAccount_settled (Fulfilled v) refreshed c)) /\
   count is_refresh (effects (handleCreateAccount_settled (Fulfilled v) refreshed c)) = 1) /\
  (In wanted (effects (handleDeleteAccount_settled (Fulfilled v) refreshed c)) /\
   count is_refresh (effects (handleDeleteAccount_settled (Fulfilled v) refreshed c)) = 1) /\
  (In wanted (effects (handleSaveEdit_settled (Fulfilled v) refreshed c)) /\
   count is_refresh (effects (handleSaveEdit_settled (Fulfilled v) refreshed c)) = 1).
Proof.
  cbn zeta. repeat split; run_handler; split_run; auto.
Qed.

(** The one refresh request that a fulfilled create, delete or update sends
    names the wire result that was delivered last, whatever the user did in
    between and whatever that result was (a collection, an error, or the
    result with neither). *)
Theorem refresh_names_the_latest_wire_result
    (result v : value) (refreshed : settled) (actions : list action)
    (c : component) :
  forallb (fun a => negb (writes_cache a)) actions = true ->
  let now := after_all actions (after (Wired result) c) in
  (In (RefreshCall result) (sent (CreateSettled (Fulfilled v) refreshed) now) /\
   count is_refresh (sent (CreateSettled (Fulfilled v) refreshed) now) = 1) /\
  (In (RefreshCall result) (sent (DeleteSettled (Fulfilled v) refreshed) now) /\
   count is_refresh (sent (DeleteSettled (Fulfilled v) refreshed) now) = 1) /\
  (In (RefreshCall result) (sent (SaveSettled (Fulfilled v) refreshed) now) /\
   count is_refresh (sent (SaveSettled (Fulfilled v) refreshed) now) = 1).
Proof.
  intros Hall now.
  assert (Hwired : wiredAccountsResult now = result).
  { subst now. rewrite (after_all_keeps_wired _ _ Hall).
    apply wiredAccounts_stores_result. }
  cbn [sent]. rewrite <- Hwired. apply fulfilled_chains_refresh.
Qed.

Lemma refresh_names_the_latest_wire_result_witness :
  let result := wire_result (VArr [acme; globex]) VUndefined in
  let now := after_all [StartEdit (click "2"); SaveEdit] (after (Wired result) initial) in
  (In (RefreshCall result)
      (sent (CreateSettled (Fulfilled VUndefined) (Fulfilled VUndefined)) now) /\
   count is_refresh
     (sent (CreateSettled (Fulfilled VUndefined) (Fulfilled VUndefined)) now) = 1) /\
  (In (RefreshCall result)
      (sent (DeleteSettled (Fulfilled VUndefined) (Fulfilled VUndefined)) now) /\
   count is_refresh
     (sent (DeleteSettled (Fulfilled VUndefined) (Fulfilled VUndefined)) now) = 1) /\
  (In (RefreshCall result)
      (sent (SaveSettled (Fulfilled VUndefined) (Fulfilled VUndefined)) now) /\
   count is_refresh
     (sent (SaveSettled (Fulfilled VUndefined) (Fulfilled VUndefined)) now) = 1).
Proof.
  exact (refresh_names_the_latest_wire_result
           (wire_result (VArr [acme; globex]) VUndefined) VUndefined
           (Fulfilled VUndefined) [StartEdit (click "2"); SaveEdit] initial
           eq_refl).
Defined.

(** *** Edit: what start-edit can do *)

Lemma find_by_Id_sound (rows : list value) (accountId : value) :
  match find_by_Id rows accountId with
  | Normal found =>
      found = VUndefined \/
      (In found rows /\ strict_eq (prop found "Id") accountId = true)
  | Throws exn => exn = TypeError
  end.
Proof.
  induction rows as [|a rows IH]; cbn [find_by_Id]; [now left|].
  unfold get. destruct (nullish a); [reflexivity|].
  destruct (strict_eq (prop a "Id") accountId) eqn:Heq.
  - right. split; [now left|exact Heq].
  - destruct (find_by_Id rows accountId) as [found|exn]; [|exact IH].
    destruct IH as [->|[Hin Hid]]; [now left|].
    right. split; [now right|exact Hid].
Qed.

(** Start-edit does one of three things.  It opens the edit form on an
    element of the cached collection whose [Id] is the id the event
    carries, taking the editing id from the event and the five fields from
    that element ([||] putting the empty string for a falsy one); or it
    dispatches the not-found toast; or it throws a [TypeError].  In the last
    two cases the component is exactly as it was.  It never sends a remote
    call. *)
Theorem start_edit_opens_a_listed_record_or_nothing (ev : event) (c : component) :
  let r := handleStartEdit ev c in
  ((exists rows record,
      accounts c = VArr rows /\
      In record rows /\
      strict_eq (prop record "Id") (target_dataset_id ev) = true /\
      returned r = Normal tt /\
      effects r = [] /\
      edit_form (state r) =
        (target_dataset_id ev,
         or_else (prop record "Name") (VStr ""),
         or_else (prop record "Industry") (VStr ""),
         or_else (prop record "Phone") (VStr ""),
         or_else (prop record "Description") (VStr ""),
         or_else (prop record "Site") (VStr "")))
   \/ (returned r = Normal tt /\ state r = c /\
       effects r = [Toast "Error" (VStr "Account not found in the current list") "error"])
   \/ (returned r = Throws TypeError /\ state r = c /\ effects r = []))
  /\ count is_remote_call (effects r) = 0.
Proof.
  cbn zeta.
  destruct (find (accounts c) (target_dataset_id ev)) as [found|exn] eqn:Hfind.
  - destruct (truthy found) eqn:Htruthy.
    + rewrite (handleStartEdit_found ev c found Hfind Htruthy).
      split; [left|reflexivity].
      destruct (accounts c) as [| | | | | |rows] eqn:Hacc; try discriminate Hfind.
      cbn [find] in Hfind.
      pose proof (find_by_Id_sound rows (target_dataset_id ev)) as Hsound.
      rewrite Hfind in Hsound.
      destruct Hsound as [->|[Hin Hid]]; [discriminate Htruthy|].
      exists rows, found. repeat split; assumption.
    + rewrite (handleStartEdit_not_found ev c found Hfind Htruthy).
      split; [right; left; repeat split|reflexivity].
  - rewrite (handleStartEdit_throws ev c exn Hfind).
    split; [right; right|reflexivity].
    assert (exn = TypeError) as ->.
    { destruct (accounts c) as [| | | | | |rows]; cbn [find] in Hfind;
        try (now injection Hfind).
      pose proof (find_by_Id_sound rows (target_dataset_id ev)) as Hsound.
      now rewrite Hfind in Hsound. }
    repeat split.
Qed.
